(** * Security runbook agent: the tool handlers and the approval stub

    A shallow embedding of the Python sources of the repository

    - [src/tools/triage.py]            (module [Triage]),
    - [src/tools/enrichment.py]        (module [Enrichment]),
    - [src/tools/browser_executor.py]  (module [BrowserExecutor]),
    - [src/tools/nova_executor.py]     (module [NovaExecutor]),
    - [src/agent/security_agent.py]    (module [SecurityAgent]),

    followed by the properties of the specification that these sources
    decide.

    Python values that reach the handlers are JSON documents; a Python
    [float] is an IEEE-754 binary64 number and is modelled by Rocq's
    primitive [float], so the arithmetic of the classifier is the
    arithmetic the interpreter performs, rounding included. *)

From Stdlib Require Import ZArith Floats String Ascii List Bool Lia.
Import ListNotations.

Set Warnings "-register-all,-inexact-float".

Open Scope string_scope.
Open Scope Z_scope.

(** ** Python values and exceptions *)

(** A JSON document as [json.loads] delivers it.  A [dict] keeps its
    insertion order, hence the association list; [assoc] returns the first
    binding of a key, which is the only one in a well-formed dict. *)
Inductive json : Type :=
| JNull
| JBool (b : bool)
| JInt (z : Z)
| JFloat (f : float)
| JStr (s : string)
| JArr (l : list json)
| JObj (m : list (string * json)).

Inductive exn : Type :=
| AttributeError
| TypeError
| KeyError (k : string)
| ClientError (msg : string).

Inductive result (A : Type) : Type :=
| Ok (a : A)
| Raise (e : exn).

Arguments Ok {A} a.
Arguments Raise {A} e.

Fixpoint assoc {A : Type} (k : string) (m : list (string * A)) : option A :=
  match m with
  | [] => None
  | (k', v) :: m' => if String.eqb k k' then Some v else assoc k m'
  end.

(** [d.get(k, default)]: only a dict has the method. *)
Definition py_get (d : json) (k : string) (default : json) : result json :=
  match d with
  | JObj m => Ok (match assoc k m with Some v => v | None => default end)
  | _ => Raise AttributeError
  end.

(** [d.get(key, default)] with a key that is itself a document: hashing
    the key comes after the attribute lookup and fails on a list or a
    dict; a dict built from string keys holds no other key. *)
Definition py_get_key (d key default : json) : result json :=
  match d with
  | JObj m =>
      match key with
      | JArr _ | JObj _ => Raise TypeError
      | JStr k => Ok (match assoc k m with Some v => v | None => default end)
      | _ => Ok default
      end
  | _ => Raise AttributeError
  end.

(** [d[k]] with a string key: [KeyError] on a dict without the key,
    [TypeError] on every other JSON value (a list or a string wants an
    integer index, the rest is not subscriptable). *)
Definition py_subscript (d : json) (k : string) : result json :=
  match d with
  | JObj m => match assoc k m with Some v => Ok v | None => Raise (KeyError k) end
  | _ => Raise TypeError
  end.

(** Truth value of a JSON document ([if v:], [not v]). *)
Definition py_truthy (v : json) : bool :=
  match v with
  | JNull => false
  | JBool b => b
  | JInt z => negb (z =? 0)
  | JFloat f => negb (PrimFloat.eqb f 0%float)
  | JStr s => negb (String.eqb s "")
  | JArr l => match l with [] => false | _ => true end
  | JObj m => match m with [] => false | _ => true end
  end.

(** [v == "literal"]. *)
Definition py_eq_str (v : json) (s : string) : bool :=
  match v with
  | JStr s' => String.eqb s' s
  | _ => false
  end.

(** Only lists and dicts are unhashable among JSON documents. *)
Definition py_hashable (v : json) : bool :=
  match v with
  | JArr _ | JObj _ => false
  | _ => true
  end.

(** [float(z)]: the integer rounded to the nearest binary64 number. *)
Definition float_of_Z (z : Z) : float :=
  SF2Prim (binary_normalize prec emax z 0 false).

Fixpoint repeat_string (s : string) (n : nat) : string :=
  match n with
  | O => ""
  | S n' => s ++ repeat_string s n'
  end.

Fixpoint repeat_list {A : Type} (l : list A) (n : nat) : list A :=
  match n with
  | O => []
  | S n' => (l ++ repeat_list l n')%list
  end.

(** [v * k] for an integer [k]: numbers multiply ([bool] is an [int]),
    strings and lists repeat, [None] and dicts have no product. *)
Definition py_mul_int (v : json) (k : Z) : result json :=
  match v with
  | JInt z => Ok (JInt (z * k))
  | JBool b => Ok (JInt (Z.b2z b * k))
  | JFloat f => Ok (JFloat (f * float_of_Z k))
  | JStr s => Ok (JStr (repeat_string s (Z.to_nat k)))
  | JArr l => Ok (JArr (repeat_list l (Z.to_nat k)))
  | JNull | JObj _ => Raise TypeError
  end.

(** [a + v] for an integer [a]: defined on numbers only. *)
Definition py_int_add (a : Z) (v : json) : result json :=
  match v with
  | JInt z => Ok (JInt (a + z))
  | JBool b => Ok (JInt (a + Z.b2z b))
  | JFloat f => Ok (JFloat (float_of_Z a + f))
  | _ => Raise TypeError
  end.

(** [v >= k] for an integer [k].  Python compares a float with an int
    exactly; for the thresholds of the source, all below [2^53], that is
    the binary64 comparison with [float(k)]. *)
Definition py_ge_int (v : json) (k : Z) : result bool :=
  match v with
  | JInt z => Ok (k <=? z)
  | JBool b => Ok (k <=? Z.b2z b)
  | JFloat f => Ok (PrimFloat.leb (float_of_Z k) f)
  | _ => Raise TypeError
  end.

(** ** The handlers' effects

    A handler runs in a world that holds what it can observe or change
    outside its arguments: the standard output and the clock read by
    [datetime.utcnow().isoformat()].  A computation takes a state and
    returns a value or an exception together with the new state. *)

Definition M (S A : Type) : Type := S -> result A * S.

Definition ret {S A : Type} (a : A) : M S A := fun s => (Ok a, s).

Definition raise {S A : Type} (e : exn) : M S A := fun s => (Raise e, s).

Definition bind {S A B : Type} (m : M S A) (k : A -> M S B) : M S B :=
  fun s =>
    match m s with
    | (Ok a, s') => k a s'
    | (Raise e, s') => (Raise e, s')
    end.

Definition lift {S A : Type} (r : result A) : M S A := fun s => (r, s).

(** [try: body finally: final]: the final block runs on every exit of the
    body; an exception of the final block replaces the body's outcome. *)
Definition try_finally {S A : Type} (body : M S A) (final : M S unit) : M S A :=
  fun s =>
    let (r, s') := body s in
    match final s' with
    | (Ok _, s'') => (r, s'')
    | (Raise e, s'') => (Raise e, s'')
    end.

Declare Scope py_scope.
Delimit Scope py_scope with py.
Notation "x <- m ;; k" := (bind m (fun x => k))
  (at level 61, m at next level, right associativity) : py_scope.
Notation "m ;;; k" := (bind m (fun _ => k))
  (at level 61, right associativity) : py_scope.
Open Scope py_scope.

Record world : Type := mkWorld {
  stdout : list string;
  clock : string
}.

Definition IO (A : Type) : Type := M world A.

Definition print (line : string) : IO unit :=
  fun w => (Ok tt, mkWorld (stdout w ++ [line]) (clock w)).

Definition utcnow_isoformat : IO string :=
  fun w => (Ok (clock w), w).

(** The Lambda context object; the handlers read [aws_request_id] only,
    an ASCII identifier, so that [substring 0 8] is the slice [[:8]]. *)
Record lambda_context : Type := mkContext {
  aws_request_id : string
}.

(** ** src/tools/triage.py *)

Module Triage.

Record verdict : Type := mkVerdict {
  severity : string;
  score : json;
  requires_approval : bool
}.

Definition lambda_handler (event : json) (context : lambda_context) : IO verdict :=
  alert <- lift (py_get event "alert" (JObj [])) ;;
  enrichment <- lift (py_get event "enrichment" (JObj [])) ;;
  let score := 0 in
  reputation <- lift (py_get enrichment "reputation" JNull) ;;
  let score :=
    if py_eq_str reputation "malicious" then score + 50
    else if py_eq_str reputation "suspicious" then score + 30
    else score in
  confidence <- lift (py_get enrichment "confidence" (JInt 0)) ;;
  weighted <- lift (py_mul_int confidence 30) ;;
  score <- lift (py_int_add score weighted) ;;
  ge80 <- lift (py_ge_int score 80) ;;
  if ge80 then ret (mkVerdict "CRITICAL" score true)
  else
    ge60 <- lift (py_ge_int score 60) ;;
    if ge60 then ret (mkVerdict "HIGH" score true)
    else
      ge40 <- lift (py_ge_int score 40) ;;
      if ge40 then ret (mkVerdict "MEDIUM" score false)
      else ret (mkVerdict "LOW" score false).

End Triage.

(** ** Text produced by the interpreter

    [repr] of a document that is not a string (numbers, [None], lists,
    dicts) is the interpreter's own and is not part of the repository: it
    is a parameter of the development.  [str] of a string is the string. *)

Class PyRepr : Type := py_repr : json -> string.

Definition py_str `{R : PyRepr} (v : json) : string :=
  match v with
  | JStr s => s
  | _ => py_repr v
  end.

(** [json.dumps(doc)]: the text is kept as the document it encodes. *)
Inductive json_text : Type :=
| Dumps (doc : json).

Definition json_dumps (doc : json) : json_text := Dumps doc.

(** The [{"statusCode": ..., "body": ...}] dict the API handlers return. *)
Record response : Type := mkResponse {
  statusCode : Z;
  body : json_text
}.

(** ** src/tools/enrichment.py *)

Module Enrichment.

Definition threat_data : json :=
  JObj [
    ("ip", JObj [
      ("192.168.1.100", JObj [
        ("reputation", JStr "suspicious");
        ("confidence", JFloat 0.65);
        ("category", JStr "C2_server")]);
      ("10.0.0.50", JObj [
        ("reputation", JStr "malicious");
        ("confidence", JFloat 0.92);
        ("category", JStr "malware_host")])]);
    ("domain", JObj [
      ("malicious-site.com", JObj [
        ("reputation", JStr "malicious");
        ("confidence", JFloat 0.98);
        ("category", JStr "phishing")])]);
    ("hash", JObj [
      ("d41d8cd98f00b204e9800998ecf8427e", JObj [
        ("reputation", JStr "malicious");
        ("confidence", JFloat 0.88);
        ("category", JStr "ransomware")])])].

Definition unknown_reputation : json :=
  JObj [
    ("reputation", JStr "unknown");
    ("confidence", JFloat 0.0);
    ("category", JStr "unknown")].

Section Handler.
Context `{R : PyRepr}.

Definition lambda_handler (event : json) (context : lambda_context) : IO response :=
  print ("Enrichment Lambda invoked with event: " ++ py_str event) ;;;
  indicator <- lift (py_get event "indicator" (JStr "")) ;;
  indicator_type <- lift (py_get event "type" (JStr "ip")) ;;
  if negb (py_truthy indicator) then
    ret (mkResponse 400 (json_dumps (JObj [("error", JStr "No indicator provided")])))
  else
    lookup_dict <- lift (py_get_key threat_data indicator_type (JObj [])) ;;
    reputation_data <- lift (py_get_key lookup_dict indicator unknown_reputation) ;;
    reputation <- lift (py_subscript reputation_data "reputation") ;;
    confidence <- lift (py_subscript reputation_data "confidence") ;;
    category <- lift (py_subscript reputation_data "category") ;;
    let result :=
      JObj [
        ("indicator", indicator);
        ("type", indicator_type);
        ("reputation", reputation);
        ("confidence", confidence);
        ("category", category);
        ("sources", JArr [JStr "Mock Threat Intel DB"])] in
    print ("Enrichment result: " ++ py_str result) ;;;
    ret (mkResponse 200 (json_dumps result)).

End Handler.

End Enrichment.

(** ** src/tools/browser_executor.py *)

Module BrowserExecutor.

Section Handler.
Context `{R : PyRepr}.

Definition lambda_handler (event : json) (context : lambda_context) : IO response :=
  print ("Browser Executor Lambda invoked with event: " ++ py_str event) ;;;
  action <- lift (py_get event "action" JNull) ;;
  params <- lift (py_get event "parameters" (JObj [])) ;;
  if negb (py_truthy action) then
    ret (mkResponse 400 (json_dumps (JObj [("error", JStr "No action specified")])))
  else
    result <-
      (if py_eq_str action "quarantine" then
         target_ip <- lift (py_get params "target_ip" (JStr "unknown")) ;;
         reason <- lift (py_get params "reason" (JStr "Security alert")) ;;
         timestamp <- utcnow_isoformat ;;
         ret (Some (JObj [
           ("success", JBool true);
           ("action", JStr "quarantine");
           ("target", target_ip);
           ("reason", reason);
           ("timestamp", JStr timestamp);
           ("session_id",
             JStr ("demo-session-" ++ substring 0 8 (aws_request_id context)));
           ("recording_url",
             JStr "https://demo-recordings.s3.amazonaws.com/session-123.mp4");
           ("message",
             JStr ("Demo: Successfully quarantined IP " ++ py_str target_ip));
           ("audit_trail", JArr [
             JStr "Navigated to firewall console";
             JStr ("Added " ++ py_str target_ip ++ " to blocklist");
             JStr "Saved configuration";
             JStr "Verified IP is blocked"])]))
       else if py_eq_str action "isolate" then
         hostname <- lift (py_get params "hostname" (JStr "unknown")) ;;
         timestamp <- utcnow_isoformat ;;
         ret (Some (JObj [
           ("success", JBool true);
           ("action", JStr "isolate");
           ("target", hostname);
           ("timestamp", JStr timestamp);
           ("message",
             JStr ("Demo: Successfully isolated endpoint " ++ py_str hostname))]))
       else if py_eq_str action "block_domain" then
         domain <- lift (py_get params "domain" (JStr "unknown")) ;;
         timestamp <- utcnow_isoformat ;;
         ret (Some (JObj [
           ("success", JBool true);
           ("action", JStr "block_domain");
           ("target", domain);
           ("timestamp", JStr timestamp);
           ("message",
             JStr ("Demo: Successfully blocked domain " ++ py_str domain))]))
       else ret None) ;;
    match result with
    | None =>
        ret (mkResponse 400
               (json_dumps (JObj [("error", JStr ("Unknown action: " ++ py_str action))])))
    | Some result =>
        print ("Execution result: " ++ py_str result) ;;;
        ret (mkResponse 200 (json_dumps result))
    end.

End Handler.

End BrowserExecutor.

(** ** src/tools/nova_executor.py *)

Module NovaExecutor.

(** The calls made on the [bedrock-agentcore-runtime] client. *)
Inductive call : Type :=
| CreateBrowserSession (agentId : string) (sessionConfiguration : json)
| InvokeBrowserAction (sessionId : json) (actionInput : json)
| GetBrowserSessionRecording (sessionId : json)
| DeleteBrowserSession (sessionId : json).

(** What the handler can change: the [session_id] attribute of the
    executor object, the service behind the client (its own state [B]),
    the calls made on it so far, each with what it returned or raised, and
    the logger's output. *)
Record state (B : Type) : Type := mkState {
  session_id : json;
  service_state : B;
  calls : list (call * result json);
  log : list string
}.

Arguments mkState {B} _ _ _ _.
Arguments session_id {B} _.
Arguments service_state {B} _.
Arguments calls {B} _.
Arguments log {B} _.

Definition newline : string := String (ascii_of_nat 10) "".

Section Handler.
Context `{R : PyRepr}.

(** The service is outside the repository: any response or error, and any
    change of its own state, is possible on each call. *)
Variable B : Type.
Variable service : call -> B -> result json * B.

Definition Exec (A : Type) : Type := M (state B) A.

Definition client (c : call) : Exec json :=
  fun s =>
    let (r, b) := service c (service_state s) in
    (r, mkState (session_id s) b (calls s ++ [(c, r)]) (log s)).

Definition logger_info (line : string) : Exec unit :=
  fun s => (Ok tt, mkState (session_id s) (service_state s) (calls s) (log s ++ [line])).

Definition set_session_id (v : json) : Exec unit :=
  fun s => (Ok tt, mkState v (service_state s) (calls s) (log s)).

Definition get_session_id : Exec json :=
  fun s => (Ok (session_id s), s).

(** [SecurityActionExecutor.__init__] *)
Definition init : Exec unit := set_session_id JNull.

(** [SecurityActionExecutor.quarantine_host] *)
Definition quarantine_host (target_ip reason : json) : Exec json :=
  logger_info ("Quarantining " ++ py_str target_ip ++ ": " ++ py_str reason) ;;;
  session_resp <-
    client (CreateBrowserSession "security-runbook-agent"
              (JObj [
                 ("recordSession", JBool true);
                 ("enableScreenshots", JBool true);
                 ("sessionTimeout", JInt 300)])) ;;
  sid <- lift (py_subscript session_resp "sessionId") ;;
  set_session_id sid ;;;
  sid <- get_session_id ;;
  action_resp <-
    client (InvokeBrowserAction sid
              (JObj [
                 ("naturalLanguageInstruction",
                   JStr ("Navigate to the firewall console," ++ newline
                         ++ "login, block IP " ++ py_str target_ip
                         ++ ", save changes, confirm."));
                 ("actionType", JStr "NAVIGATE_AND_INTERACT")])) ;;
  sid <- get_session_id ;;
  recording <- client (GetBrowserSessionRecording sid) ;;
  sid <- get_session_id ;;
  recording_url <- lift (py_get recording "recordingUrl" JNull) ;;
  screenshot_url <- lift (py_get action_resp "screenshotUrl" JNull) ;;
  audit_trail <- lift (py_get action_resp "actionLog" JNull) ;;
  ret (JObj [
    ("success", JBool true);
    ("target", target_ip);
    ("action", JStr "quarantine");
    ("session_id", sid);
    ("recording_url", recording_url);
    ("screenshot_url", screenshot_url);
    ("audit_trail", audit_trail)]).

(** [SecurityActionExecutor.cleanup] *)
Definition cleanup : Exec unit :=
  sid <- get_session_id ;;
  if py_truthy sid then
    client (DeleteBrowserSession sid) ;;; ret tt
  else ret tt.

Definition lambda_handler (event : json) (context : lambda_context) : Exec json :=
  init ;;;
  try_finally
    (action <- lift (py_get event "action" JNull) ;;
     params <- lift (py_get event "parameters" (JObj [])) ;;
     if py_eq_str action "quarantine" then
       target_ip <- lift (py_subscript params "target_ip") ;;
       reason <- lift (py_subscript params "reason") ;;
       quarantine_host target_ip reason
     else ret (JObj [("error", JStr "Unknown action")]))
    cleanup.

End Handler.

End NovaExecutor.

(** ** src/agent/security_agent.py *)

Module SecurityAgent.

(** The tool logs through the module's [logger]; the state is its output. *)
Definition Logged (A : Type) : Type := M (list string) A.

Definition logger_info (line : string) : Logged unit :=
  fun out => (Ok tt, (out ++ [line])%list).

Definition in_list (s : string) (l : list string) : bool :=
  existsb (String.eqb s) l.

(** [request_quarantine_approval(target, severity, reason) -> bool] *)
Definition request_quarantine_approval (target severity reason : string) : Logged bool :=
  logger_info ("Tool called: request_quarantine_approval(" ++ target ++ ", "
               ++ severity ++ ")") ;;;
  if in_list severity ["HIGH"; "CRITICAL"] then
    logger_info ("Approval request sent for " ++ target) ;;;
    ret true
  else ret true.

End SecurityAgent.

(** * The specification's vocabulary *)

(** ** Severity classification (spec 4.2) *)

(** The numbers a confidence or a score ranges over. *)
Inductive number : Type :=
| NInt (z : Z)
| NFloat (f : float).

Definition json_of_number (n : number) : json :=
  match n with
  | NInt z => JInt z
  | NFloat f => JFloat f
  end.

(** What an enrichment record says: its reputation ([None] when absent)
    and its confidence, a number ([0] when absent; a [bool] counts as the
    integer it is). *)
Definition reputation_of (enrichment : list (string * json)) : json :=
  match assoc "reputation" enrichment with
  | Some v => v
  | None => JNull
  end.

Definition confidence_of (enrichment : list (string * json)) : option number :=
  match assoc "confidence" enrichment with
  | None => Some (NInt 0)
  | Some (JInt z) => Some (NInt z)
  | Some (JBool b) => Some (NInt (Z.b2z b))
  | Some (JFloat f) => Some (NFloat f)
  | Some _ => None
  end.

(** The scoring policy in the spec's words: start at [0], add [50] for a
    malicious reputation, else [30] for a suspicious one, then add
    [confidence * 30]. *)
Definition spec_reputation_points (reputation : json) : Z :=
  if py_eq_str reputation "malicious" then 50
  else if py_eq_str reputation "suspicious" then 30
  else 0.

Definition spec_score (reputation : json) (confidence : number) : number :=
  match confidence with
  | NInt c => NInt (0 + spec_reputation_points reputation + c * 30)
  | NFloat c =>
      NFloat (float_of_Z (0 + spec_reputation_points reputation) + c * float_of_Z 30)
  end.

Definition number_geb (n : number) (k : Z) : bool :=
  match n with
  | NInt z => k <=? z
  | NFloat f => PrimFloat.leb (float_of_Z k) f
  end.

Definition number_leb (n : number) (k : Z) : bool :=
  match n with
  | NInt z => z <=? k
  | NFloat f => PrimFloat.leb f (float_of_Z k)
  end.

(** The threshold map, highest first. *)
Definition spec_severity (score : number) : string :=
  if number_geb score 80 then "CRITICAL"
  else if number_geb score 60 then "HIGH"
  else if number_geb score 40 then "MEDIUM"
  else "LOW".

Definition spec_requires_approval (severity : string) : bool :=
  SecurityAgent.in_list severity ["HIGH"; "CRITICAL"].

(** A confidence inside [[0, 1]], bounds included. *)
Definition in_unit_interval (n : number) : bool :=
  match n with
  | NInt z => (0 <=? z) && (z <=? 1)
  | NFloat f => PrimFloat.leb 0 f && PrimFloat.leb f 1
  end.

(** A computation that returns the same outcome in every state and leaves
    the state as it found it. *)
Definition effect_free {S A : Type} (m : M S A) : Prop :=
  exists r, forall s, m s = (r, s).

(** ** Enrichment (spec 4.1, 6) *)

(** The (type, indicator) pairs the threat-intelligence table lists. *)
Definition known_indicators : list (string * string) :=
  [ ("ip", "192.168.1.100");
    ("ip", "10.0.0.50");
    ("domain", "malicious-site.com");
    ("hash", "d41d8cd98f00b204e9800998ecf8427e") ].

Definition listed (indicator_type indicator : json) : bool :=
  existsb (fun '(t, i) => py_eq_str indicator_type t && py_eq_str indicator i)
    known_indicators.

(** ** Remediation (spec 4.4, 5) *)

(** The parameter that names the target of each recognised action. *)
Definition target_parameter (action : string) : string :=
  if String.eqb action "quarantine" then "target_ip"
  else if String.eqb action "isolate" then "hostname"
  else "domain".

(** A session was acquired in a trace of client calls: a
    [create_browser_session] call returned a response that carries the
    session's id.  It is released last when the trace ends with the
    [delete_browser_session] call for that id. *)
Definition acquired (trace : list (NovaExecutor.call * result json)) (sid : json) : Prop :=
  exists agent config resp,
    In (NovaExecutor.CreateBrowserSession agent config, Ok resp) trace /\
    py_subscript resp "sessionId" = Ok sid.

Definition released_last (trace : list (NovaExecutor.call * result json)) (sid : json) : Prop :=
  exists before r, trace = (before ++ [(NovaExecutor.DeleteBrowserSession sid, r)])%list.

(** A stand-in for the interpreter's [repr] in closed examples, whose
    statements are about values that do not contain it. *)
Definition sample_repr : PyRepr := fun _ => "<repr>".

(** The client calls of one invocation of the executor that finds the
    service in state [b]. *)
Definition invocation_trace `{R : PyRepr} {B : Type}
    (service : NovaExecutor.call -> B -> result json * B) (b : B)
    (event : json) (context : lambda_context) : list (NovaExecutor.call * result json) :=
  NovaExecutor.calls
    (snd (NovaExecutor.lambda_handler B service event context
            (NovaExecutor.mkState JNull b [] []))).

(** A service that opens a session and then fails the browser action. *)
Definition failing_service (c : NovaExecutor.call) (b : unit) : result json * unit :=
  match c with
  | NovaExecutor.CreateBrowserSession _ _ => (Ok (JObj [("sessionId", JStr "sess-42")]), b)
  | NovaExecutor.InvokeBrowserAction _ _ => (Raise (ClientError "ThrottlingException"), b)
  | _ => (Ok (JObj []), b)
  end.

(** A remediation request that carries an idempotency key, as the agent
    would send it twice. *)
Definition repeated_event : json :=
  JObj [("actionId", JStr "act-0001");
        ("action", JStr "quarantine");
        ("parameters", JObj [("target_ip", JStr "10.0.0.50");
                             ("reason", JStr "malware host")])].

(** ** Approval (spec 4.3) *)

(** Fail-closed, in the spec's words: a request on which no decision was
    delivered is not approved. *)
Definition fail_closed (decision : option bool) (approved : result bool) : Prop :=
  decision = None -> approved <> Ok true.

(** ** Rounding (binary64) *)

(** The bits shifted out of a mantissa so far are not all zero. *)
Definition inexact (mrs : shr_record) : bool := shr_r mrs || shr_s mrs.

(** * Further vocabulary *)

(** The client calls that create, and those that delete, a browser
    session. *)
Definition is_create (c : NovaExecutor.call * result json) : bool :=
  match fst c with
  | NovaExecutor.CreateBrowserSession _ _ => true
  | _ => false
  end.

Definition is_delete (c : NovaExecutor.call * result json) : bool :=
  match fst c with
  | NovaExecutor.DeleteBrowserSession _ => true
  | _ => false
  end.

(** The records the threat-intelligence lookup can return: the default
    one and the four of the table. *)
Definition lookup_records : list json :=
  [ Enrichment.unknown_reputation;
    JObj [("reputation", JStr "suspicious"); ("confidence", JFloat 0.65);
          ("category", JStr "C2_server")];
    JObj [("reputation", JStr "malicious"); ("confidence", JFloat 0.92);
          ("category", JStr "malware_host")];
    JObj [("reputation", JStr "malicious"); ("confidence", JFloat 0.98);
          ("category", JStr "phishing")];
    JObj [("reputation", JStr "malicious"); ("confidence", JFloat 0.88);
          ("category", JStr "ransomware")] ].

(** The session configuration and the action input the executor sends. *)
Definition session_configuration : json :=
  JObj [("recordSession", JBool true);
        ("enableScreenshots", JBool true);
        ("sessionTimeout", JInt 300)].

Definition action_input `{R : PyRepr} (target_ip : json) : json :=
  JObj [("naturalLanguageInstruction",
         JStr ("Navigate to the firewall console," ++ NovaExecutor.newline
               ++ "login, block IP " ++ py_str target_ip
               ++ ", save changes, confirm."));
        ("actionType", JStr "NAVIGATE_AND_INTERACT")].

(** A quarantine request as the agent's tool builds it. *)
Definition quarantine_event (target_ip reason : json) : json :=
  JObj [("action", JStr "quarantine");
        ("parameters", JObj [("target_ip", target_ip); ("reason", reason)])].

(** A service that answers every call and counts them. *)
Definition answering_service (c : NovaExecutor.call) (n : nat) : result json * nat :=
  match c with
  | NovaExecutor.CreateBrowserSession _ _ =>
      (Ok (JObj [("sessionId", JStr "sess-7")]), S n)
  | NovaExecutor.InvokeBrowserAction _ _ =>
      (Ok (JObj [("screenshotUrl", JStr "https://shots/7.png");
                 ("actionLog", JArr [JStr "opened console"; JStr "blocked"])]), S n)
  | NovaExecutor.GetBrowserSessionRecording _ =>
      (Ok (JObj [("recordingUrl", JStr "https://recordings/7.mp4")]), S n)
  | NovaExecutor.DeleteBrowserSession _ => (Ok (JObj []), S n)
  end.

(** A service whose session deletion fails. *)
Definition leaking_service (c : NovaExecutor.call) (n : nat) : result json * nat :=
  match c with
  | NovaExecutor.DeleteBrowserSession _ => (Raise (ClientError "AccessDenied"), S n)
  | _ => answering_service c n
  end.

(** * Properties *)

(** ** Rounding of a product by thirty

    The product of a binary64 number in [[0, 1]] by [30.0] is rounded to
    nearest-even by the interpreter.  The lemmas below follow the rounding
    of Rocq's specification of binary64 ([SpecFloat]) and bound the result
    by [30.0]: the scaled confidence never reaches a threshold by
    rounding. *)

Section Rounding.

Lemma digits2_pos_bounds (p : positive) :
  2 ^ (Zpos (digits2_pos p) - 1) <= Zpos p < 2 ^ Zpos (digits2_pos p).
Proof.
  induction p as [p IH | p IH |]; cbn [digits2_pos].
  - rewrite Pos2Z.inj_succ.
    replace (Z.succ (Zpos (digits2_pos p)) - 1) with (Z.succ (Zpos (digits2_pos p) - 1)) by lia.
    rewrite !Z.pow_succ_r by lia. lia.
  - rewrite Pos2Z.inj_succ.
    replace (Z.succ (Zpos (digits2_pos p)) - 1) with (Z.succ (Zpos (digits2_pos p) - 1)) by lia.
    rewrite !Z.pow_succ_r by lia. lia.
  - cbn. lia.
Qed.

Lemma Zdigits2_le (m k : Z) : 0 <= k -> 0 <= m < 2 ^ k -> Zdigits2 m <= k.
Proof.
  intros Hk [Hm0 Hm]. destruct m as [| p | p]; cbn [Zdigits2]; try lia.
  destruct (digits2_pos_bounds p) as [Hlo _].
  destruct (Z_lt_le_dec k (Zpos (digits2_pos p))) as [Hlt | Hle]; [| exact Hle].
  exfalso.
  assert (2 ^ k <= 2 ^ (Zpos (digits2_pos p) - 1)) by (apply Z.pow_le_mono_r; lia).
  lia.
Qed.

Lemma shr_1_m (mrs : shr_record) :
  0 <= shr_m mrs -> shr_m (shr_1 mrs) = shr_m mrs / 2.
Proof.
  destruct mrs as [m r s]; cbn [shr_m]. intros Hm.
  destruct m as [| [p | p |] | p]; cbn [shr_1 shr_m]; try lia; try reflexivity.
  - apply Z.div_unique with (r := 1); lia.
  - apply Z.div_unique with (r := 0); lia.
Qed.

Lemma iter_pos_shr_1_m (p : positive) :
  forall mrs, 0 <= shr_m mrs ->
    shr_m (iter_pos shr_1 p mrs) = shr_m mrs / 2 ^ Zpos p.
Proof.
  induction p as [p IH | p IH |]; intros mrs Hm; cbn [iter_pos].
  - assert (H1 : 0 <= shr_m (shr_1 mrs)) by (rewrite shr_1_m by assumption; apply Z.div_pos; lia).
    assert (H2 : 0 <= shr_m (iter_pos shr_1 p (shr_1 mrs))) by (rewrite IH by assumption; apply Z.div_pos; lia).
    rewrite IH, IH, shr_1_m by assumption.
    rewrite !Z.div_div by lia.
    f_equal.
    replace (Zpos p~1) with (1 + Zpos p + Zpos p) by lia.
    rewrite !Z.pow_add_r by lia. lia.
  - assert (H2 : 0 <= shr_m (iter_pos shr_1 p mrs)) by (rewrite IH by assumption; apply Z.div_pos; lia).
    rewrite IH, IH by assumption.
    rewrite !Z.div_div by lia.
    f_equal.
    replace (Zpos p~0) with (Zpos p + Zpos p) by lia.
    rewrite !Z.pow_add_r by lia. lia.
  - rewrite shr_1_m by assumption. reflexivity.
Qed.

Lemma shr_1_exact (mrs : shr_record) :
  0 <= shr_m mrs -> (2 | shr_m mrs) -> inexact mrs = false ->
  inexact (shr_1 mrs) = false.
Proof.
  destruct mrs as [m r s]; unfold inexact; cbn [shr_m shr_r shr_s].
  intros Hm [q Hq] Hrs.
  destruct m as [| [p | p |] | p]; cbn [shr_1 shr_r shr_s]; try lia;
    rewrite ?Hrs; reflexivity.
Qed.

Lemma iter_pos_shr_1_exact (p : positive) :
  forall mrs, 0 <= shr_m mrs -> (2 ^ Zpos p | shr_m mrs) -> inexact mrs = false ->
    inexact (iter_pos shr_1 p mrs) = false.
Proof.
  assert (Hhalf : forall (q : positive) (m : Z),
             0 <= m -> (2 ^ Zpos q * 2 ^ Zpos q | m) ->
             (2 ^ Zpos q | m) /\ (2 ^ Zpos q | m / 2 ^ Zpos q)).
  { intros q m Hm [c Hc]. assert (0 < 2 ^ Zpos q) by (apply Z.pow_pos_nonneg; lia).
    split.
    - exists (c * 2 ^ Zpos q). lia.
    - exists c. subst m. rewrite Z.mul_assoc, Z.div_mul by lia. reflexivity. }
  induction p as [p IH | p IH |]; intros mrs Hm Hdiv Hex; cbn [iter_pos].
  - assert (H2 : (2 | shr_m mrs)).
    { destruct Hdiv as [c Hc]. exists (c * 2 ^ (Zpos p~1 - 1)).
      rewrite Hc. rewrite <- Z.mul_assoc. f_equal.
      replace (Zpos p~1) with (Z.succ (Zpos p~1 - 1)) at 1 by lia.
      rewrite Z.pow_succ_r by lia. lia. }
    assert (Hm1 : 0 <= shr_m (shr_1 mrs)) by (rewrite shr_1_m by assumption; apply Z.div_pos; lia).
    assert (Hd1 : (2 ^ Zpos p * 2 ^ Zpos p | shr_m (shr_1 mrs))).
    { rewrite shr_1_m by assumption. destruct Hdiv as [c Hc]. exists c.
      rewrite Hc. replace (Zpos p~1) with (Zpos p + Zpos p + 1) by lia.
      rewrite !Z.pow_add_r by lia. change (2 ^ 1) with 2.
      rewrite !Z.mul_assoc, Z.div_mul by lia. lia. }
    destruct (Hhalf p _ Hm1 Hd1) as [Ha Hb].
    apply IH.
    + rewrite iter_pos_shr_1_m by assumption. apply Z.div_pos; lia.
    + rewrite iter_pos_shr_1_m by assumption. exact Hb.
    + apply IH; [assumption | exact Ha | apply shr_1_exact; assumption].
  - assert (Hd1 : (2 ^ Zpos p * 2 ^ Zpos p | shr_m mrs)).
    { destruct Hdiv as [c Hc]. exists c.
      rewrite Hc. replace (Zpos p~0) with (Zpos p + Zpos p) by lia.
      rewrite !Z.pow_add_r by lia. reflexivity. }
    destruct (Hhalf p _ Hm Hd1) as [Ha Hb].
    apply IH.
    + rewrite iter_pos_shr_1_m by assumption. apply Z.div_pos; lia.
    + rewrite iter_pos_shr_1_m by assumption. exact Hb.
    + apply IH; assumption.
  - apply shr_1_exact; assumption.
Qed.

Lemma shr_spec (mrs : shr_record) (e n : Z) :
  0 <= shr_m mrs ->
  exists mrs',
    shr mrs e n = (mrs', e + Z.max n 0) /\
    shr_m mrs' = shr_m mrs / 2 ^ Z.max n 0 /\
    ((2 ^ Z.max n 0 | shr_m mrs) -> inexact mrs = false -> inexact mrs' = false).
Proof.
  intros Hm. destruct n as [| p | p]; cbn [shr Z.max Z.compare].
  - exists mrs. rewrite Z.add_0_r, Z.div_1_r. auto.
  - exists (iter_pos shr_1 p mrs). rewrite iter_pos_shr_1_m by assumption.
    split; [reflexivity | split; [reflexivity |]].
    intros. apply iter_pos_shr_1_exact; assumption.
  - exists mrs. rewrite Z.add_0_r, Z.div_1_r. auto.
Qed.

Lemma round_nearest_even_bounds (m : Z) (l : location) :
  m <= round_nearest_even m l <= m + 1.
Proof.
  destruct l as [| [ | | ]]; cbn [round_nearest_even]; try lia.
  destruct (Z.even m); lia.
Qed.

Lemma round_exact (mrs : shr_record) :
  inexact mrs = false ->
  round_nearest_even (shr_m mrs) (loc_of_shr_record mrs) = shr_m mrs.
Proof.
  destruct mrs as [m [|] [|]]; unfold inexact; cbn; congruence.
Qed.

Lemma pow2_split (a b : Z) : 0 <= a -> 0 <= b -> 2 ^ (a + b) = 2 ^ a * 2 ^ b.
Proof. intros. apply Z.pow_add_r; assumption. Qed.

Lemma round_aux_le_30 (mx ex : Z) :
  0 < mx -> ex <= -48 ->
  ex <= fexp prec emax (Zdigits2 mx + ex) ->
  mx <= 30 * 2 ^ (- ex) ->
  binary_round_aux prec emax false mx ex loc_Exact = S754_zero false \/
  exists m e,
    binary_round_aux prec emax false mx ex loc_Exact = S754_finite false m e /\
    (e < -48 \/ (e = -48 /\ Zpos m <= 30 * 2 ^ 48)).
Proof.
  intros Hmx Hex Hcan Hle.
  unfold binary_round_aux, shr_fexp.
  set (e1 := fexp prec emax (Zdigits2 mx + ex)) in *.
  assert (Hpow : forall k, 0 <= k -> 0 < 2 ^ k) by (intros; apply Z.pow_pos_nonneg; lia).
  assert (He1 : e1 <= -48).
  { assert (Zdigits2 mx <= 5 - ex).
    { apply Zdigits2_le; [lia |]. split; [lia |].
      replace (5 - ex) with (5 + - ex) by lia. rewrite pow2_split by lia.
      change (2 ^ 5) with 32. specialize (Hpow (- ex)). lia. }
    subst e1. unfold fexp, SpecFloat.emin, prec, emax. lia. }
  destruct (shr_spec (shr_record_of_loc mx loc_Exact) ex (e1 - ex)) as (mrs1 & Hs1 & Hm1 & Hx1);
    [cbn; lia |].
  rewrite Hs1. cbn [shr_record_of_loc shr_m] in Hm1, Hx1.
  replace (Z.max (e1 - ex) 0) with (e1 - ex) in * by lia.
  replace (ex + (e1 - ex)) with e1 by lia.
  assert (Hsplit : 2 ^ (- ex) = 2 ^ (- e1) * 2 ^ (e1 - ex)).
  { rewrite <- pow2_split by lia. f_equal. lia. }
  assert (Hm1lo : 0 <= shr_m mrs1) by (rewrite Hm1; apply Z.div_pos; [lia | apply Hpow; lia]).
  assert (Hm1hi : shr_m mrs1 <= 30 * 2 ^ (- e1)).
  { rewrite Hm1. apply Z.div_le_upper_bound; [apply Hpow; lia |]. rewrite Hsplit in Hle. lia. }
  pose proof (round_nearest_even_bounds (shr_m mrs1) (loc_of_shr_record mrs1)) as Hr.
  set (mr := round_nearest_even (shr_m mrs1) (loc_of_shr_record mrs1)) in *.
  set (e2 := fexp prec emax (Zdigits2 mr + e1)).
  assert (H48 : 2 ^ 48 <= 2 ^ (- e1)) by (apply Z.pow_le_mono_r; lia).
  assert (He2 : e2 <= -48).
  { assert (Zdigits2 mr <= 5 - e1).
    { apply Zdigits2_le; [lia |]. split; [lia |].
      replace (5 - e1) with (5 + - e1) by lia. rewrite pow2_split by lia.
      change (2 ^ 5) with 32. change (2 ^ 48) with 281474976710656 in H48. lia. }
    subst e2. unfold fexp, SpecFloat.emin, prec, emax. lia. }
  destruct (shr_spec (shr_record_of_loc mr loc_Exact) e1 (e2 - e1)) as (mrs2 & Hs2 & Hm2 & _);
    [cbn; lia |].
  rewrite Hs2. cbn [shr_record_of_loc shr_m] in Hm2.
  assert (Hm2lo : 0 <= shr_m mrs2) by (rewrite Hm2; apply Z.div_pos; [lia | apply Hpow; lia]).
  destruct (shr_m mrs2) as [| p | p] eqn:Hp; [left; reflexivity | | lia].
  right.
  replace (e1 + Z.max (e2 - e1) 0 <=? emax - prec) with true
    by (symmetry; apply Z.leb_le; unfold emax, prec; lia).
  exists p, (e1 + Z.max (e2 - e1) 0). split; [reflexivity |].
  destruct (Z_lt_le_dec (e1 + Z.max (e2 - e1) 0) (-48)) as [Hlt | Hge]; [left; exact Hlt | right].
  split; [lia |].
  destruct (Z_lt_le_dec 0 (e2 - e1)) as [Hshift | Hnoshift].
  - (* the rounded mantissa overflowed and was shifted once more *)
    replace (Z.max (e2 - e1) 0) with (e2 - e1) in * by lia.
    assert (Hk : 2 ^ (- e1) = 2 ^ 48 * 2 ^ (e2 - e1)).
    { rewrite <- pow2_split by lia. f_equal. lia. }
    assert (Zpos p < 30 * 2 ^ 48 + 1); [| lia].
    rewrite Hm2. apply Z.div_lt_upper_bound; [apply Hpow; lia |].
    specialize (Hpow (e2 - e1)). rewrite Hk in Hm1hi.
    assert (2 <= 2 ^ (e2 - e1)).
    { change 2 with (2 ^ 1) at 1. apply Z.pow_le_mono_r; lia. }
    nia.
  - replace (Z.max (e2 - e1) 0) with 0 in * by lia.
    rewrite Z.pow_0_r, Z.div_1_r in Hm2.
    assert (He1' : e1 = -48) by lia. rewrite He1' in *. change (- -48) with 48 in *.
    rewrite Hm2.
    destruct (Z_lt_le_dec (shr_m mrs1) (30 * 2 ^ 48)) as [Hlow | Htop]; [lia |].
    (* the quotient is the bound itself: the division was exact *)
    assert (Hexact : inexact mrs1 = false).
    { apply Hx1; [| reflexivity].
      exists (30 * 2 ^ 48).
      assert (Heq : shr_m mrs1 = 30 * 2 ^ 48) by lia.
      rewrite Hm1 in Heq.
      pose proof (Z.mul_div_le mx (2 ^ (-48 - ex)) (Hpow (-48 - ex) ltac:(lia))) as Hd.
      rewrite Heq in Hd. rewrite Hsplit in Hle. lia. }
    unfold mr. rewrite round_exact by assumption. lia.
Qed.

Lemma Zdigits2_ge (p : positive) (k : Z) : 0 <= k -> 2 ^ k <= Zpos p -> k + 1 <= Zpos (digits2_pos p).
Proof.
  intros Hk Hle. destruct (digits2_pos_bounds p) as [_ Hhi].
  destruct (Z_lt_le_dec k (Zpos (digits2_pos p))) as [Hlt | Hge]; [lia |].
  exfalso. assert (2 ^ Zpos (digits2_pos p) <= 2 ^ k) by (apply Z.pow_le_mono_r; lia). lia.
Qed.

Lemma SFmul_unit_30 (m : positive) (e : Z) :
  valid_binary (S754_finite false m e) = true ->
  SFleb (S754_finite false m e) (Prim2SF 1) = true ->
  SF64mul (S754_finite false m e) (Prim2SF (float_of_Z 30)) = S754_zero false \/
  exists m' e',
    SF64mul (S754_finite false m e) (Prim2SF (float_of_Z 30)) = S754_finite false m' e' /\
    (e' < -48 \/ (e' = -48 /\ Zpos m' <= 30 * 2 ^ 48)).
Proof.
  intros Hvalid Hle.
  replace (Prim2SF (float_of_Z 30)) with (S754_finite false 8444249301319680 (-48))
    by (vm_compute; reflexivity).
  replace (Prim2SF 1) with (S754_finite false 4503599627370496 (-52)) in Hle
    by (vm_compute; reflexivity).
  unfold SF64mul, SFmul. cbn [xorb].
  cbn [valid_binary] in Hvalid. unfold bounded, canonical_mantissa in Hvalid.
  apply andb_prop in Hvalid. destruct Hvalid as [Hcanon _].
  apply Z.eqb_eq in Hcanon. unfold fexp, SpecFloat.emin, prec, emax in Hcanon.
  destruct (digits2_pos_bounds m) as [Hdlo Hdhi].
  assert (Hd : 1 <= Zpos (digits2_pos m) <= 53) by lia.
  assert (Hpow : forall k, 0 <= k -> 0 < 2 ^ k) by (intros; apply Z.pow_pos_nonneg; lia).
  (* the operand is at most one: its exponent and mantissa are bounded *)
  assert (Hm : e <= -52 /\ Zpos m <= 2 ^ (- e)).
  { unfold SFleb, SFcompare in Hle.
    destruct (Z.compare_spec e (-52)) as [Heq | Hlt | Hgt]; [| | discriminate].
    - subst e. split; [lia |]. change (2 ^ (- -52)) with 4503599627370496.
      destruct (Pos.compare_cont Eq m 4503599627370496) eqn:Hc; try discriminate.
      + apply Pos.compare_eq in Hc. subst m. lia.
      + pose proof (proj1 (Pos.compare_lt_iff m 4503599627370496)) as Hlt.
        unfold Pos.compare in Hlt. specialize (Hlt Hc).
        apply Z.lt_le_incl, Pos2Z.pos_lt_pos. exact Hlt.
    - split; [lia |].
      assert (2 ^ Zpos (digits2_pos m) <= 2 ^ (- e)) by (apply Z.pow_le_mono_r; lia). lia. }
  destruct Hm as [He Hm].
  rewrite Pos2Z.inj_mul.
  apply round_aux_le_30.
  - lia.
  - lia.
  - assert (Zpos (digits2_pos m) + 52 <= Zdigits2 (Zpos m * 8444249301319680)).
    { rewrite <- Pos2Z.inj_mul. cbn [Zdigits2].
      replace (Zpos (digits2_pos m) + 52) with ((Zpos (digits2_pos m) - 1 + 52) + 1) by lia.
      apply Zdigits2_ge; [lia |].
      rewrite Pos2Z.inj_mul, pow2_split by lia.
      change (2 ^ 52) with 4503599627370496. specialize (Hpow (Zpos (digits2_pos m) - 1)). nia. }
    unfold fexp, SpecFloat.emin, prec, emax. lia.
  - replace (- (e + -48)) with (- e + 48) by lia. rewrite pow2_split by lia.
    change (2 ^ 48) with 281474976710656. specialize (Hpow (- e)). nia.
Qed.

Lemma float_unit_scaled (f : float) :
  PrimFloat.leb 0 f = true -> PrimFloat.leb f 1 = true ->
  let s := (float_of_Z 0 + f * float_of_Z 30)%float in
  PrimFloat.leb s (float_of_Z 30) = true /\
  PrimFloat.leb (float_of_Z 40) s = false /\
  PrimFloat.leb (float_of_Z 60) s = false /\
  PrimFloat.leb (float_of_Z 80) s = false.
Proof.
  intros H0 H1 s. subst s.
  rewrite leb_spec in H0, H1. rewrite !leb_spec, add_spec, mul_spec.
  pose proof (Prim2SF_valid f) as Hvalid.
  replace (Prim2SF 0) with (S754_zero false) in H0 by (vm_compute; reflexivity).
  replace (Prim2SF (float_of_Z 0)) with (S754_zero false) by (vm_compute; reflexivity).
  replace (Prim2SF (float_of_Z 40)) with (S754_finite false 5629499534213120 (-47))
    by (vm_compute; reflexivity).
  replace (Prim2SF (float_of_Z 60)) with (S754_finite false 8444249301319680 (-47))
    by (vm_compute; reflexivity).
  replace (Prim2SF (float_of_Z 80)) with (S754_finite false 5629499534213120 (-46))
    by (vm_compute; reflexivity).
  destruct (Prim2SF f) as [sg | sg | | sg m e] eqn:Hf.
  - (* a zero *)
    replace (Prim2SF (float_of_Z 30)) with (S754_finite false 8444249301319680 (-48))
      by (vm_compute; reflexivity).
    destruct sg; cbn; auto.
  - (* an infinity is below zero or above one *)
    replace (Prim2SF 1) with (S754_finite false 4503599627370496 (-52)) in H1
      by (vm_compute; reflexivity).
    destruct sg; cbn in H0, H1; discriminate.
  - cbn in H0. discriminate.
  - destruct sg; [cbn in H0; discriminate |].
    destruct (SFmul_unit_30 m e Hvalid H1) as [Hz | (m' & e' & Hm & Hb)].
    + rewrite Hz.
      replace (Prim2SF (float_of_Z 30)) with (S754_finite false 8444249301319680 (-48))
        by (vm_compute; reflexivity).
      cbn. auto.
    + rewrite Hm.
      replace (Prim2SF (float_of_Z 30)) with (S754_finite false 8444249301319680 (-48))
        by (vm_compute; reflexivity).
      unfold SF64add, SFadd, SFleb, SFcompare.
      assert (H47 : (-47 ?= e') = Gt) by (apply Z.compare_gt_iff; lia).
      assert (H46 : (-46 ?= e') = Gt) by (apply Z.compare_gt_iff; lia).
      rewrite H47, H46. repeat split; try reflexivity.
      destruct Hb as [Hlt | [Heq Hle]].
      * replace (e' ?= -48) with Lt by (symmetry; apply Z.compare_lt_iff; lia). reflexivity.
      * subst e'. rewrite Z.compare_refl.
        change (30 * 2 ^ 48) with (Zpos 8444249301319680) in Hle.
        destruct (Pos.compare_cont Eq m' 8444249301319680) eqn:Hc; try reflexivity.
        exfalso.
        pose proof (proj1 (Pos.compare_gt_iff m' 8444249301319680)) as Hgt.
        unfold Pos.compare in Hgt. specialize (Hgt Hc).
        apply Pos2Z.pos_lt_pos in Hgt.
        apply (Z.lt_irrefl (Zpos 8444249301319680)).
        eapply Z.lt_le_trans; eassumption.
Qed.

End Rounding.

(** ** Effect-free computations *)

Lemma effect_free_ret {S A : Type} (a : A) : effect_free (S := S) (ret a).
Proof. exists (Ok a). reflexivity. Qed.

Lemma effect_free_lift {S A : Type} (r : result A) : effect_free (S := S) (lift r).
Proof. exists r. reflexivity. Qed.

Lemma effect_free_bind {S A B : Type} (m : M S A) (k : A -> M S B) :
  effect_free m -> (forall a, effect_free (k a)) -> effect_free (bind m k).
Proof.
  intros [r Hr] Hk. destruct r as [a | e].
  - destruct (Hk a) as [r' Hr']. exists r'. intros s. unfold bind. rewrite Hr. apply Hr'.
  - exists (Raise e). intros s. unfold bind. rewrite Hr. reflexivity.
Qed.

Create HintDb effects.
#[local] Hint Resolve effect_free_ret effect_free_lift : effects.

Ltac effect_free_step :=
  match goal with
  | |- effect_free (bind _ _) => apply effect_free_bind; [| intros ?]
  | |- effect_free (if ?b then _ else _) => destruct b
  | |- effect_free (let _ := _ in _) => cbv zeta
  | |- effect_free _ => solve [auto with effects]
  end.

(** ** The severity classifier *)

Lemma triage_effect_free (event : json) (context : lambda_context) :
  effect_free (Triage.lambda_handler event context).
Proof. unfold Triage.lambda_handler. repeat effect_free_step. Qed.

(** The handler on a well-typed event: a dict whose enrichment is a dict
    with a numeric (or absent) confidence. *)
Lemma triage_eval (event : json) (context : lambda_context) (w : world)
    (enr : list (string * json)) (c : number) :
  py_get event "enrichment" (JObj []) = Ok (JObj enr) ->
  confidence_of enr = Some c ->
  let s := spec_score (reputation_of enr) c in
  Triage.lambda_handler event context w =
    (Ok (Triage.mkVerdict (spec_severity s) (json_of_number s)
           (spec_requires_approval (spec_severity s))), w).
Proof.
  intros Henr Hconf s.
  destruct event as [| | | | | | m]; try discriminate Henr.
  unfold Triage.lambda_handler, bind, lift, ret.
  cbn [py_get] in *. injection Henr as Henr. rewrite Henr.
  cbn [py_get]. fold (reputation_of enr).
  unfold confidence_of in Hconf. subst s.
  unfold spec_score, spec_reputation_points, spec_severity.
  destruct (py_eq_str (reputation_of enr) "malicious");
    [| destruct (py_eq_str (reputation_of enr) "suspicious")];
    (destruct (assoc "confidence" enr) as [[| b | z | f | | |] |];
     try discriminate Hconf; injection Hconf as <-;
     cbn [py_mul_int py_int_add py_ge_int number_geb json_of_number];
     rewrite ?Z.add_0_l;
     repeat match goal with
            | |- context [if ?b then _ else _] => destruct b eqn:?
            end; reflexivity).
Qed.

Lemma triage_verdict_shape (event : json) (context : lambda_context) (w : world)
    (v : Triage.verdict) :
  fst (Triage.lambda_handler event context w) = Ok v ->
  exists s,
    v = Triage.mkVerdict "CRITICAL" s true \/ v = Triage.mkVerdict "HIGH" s true \/
    v = Triage.mkVerdict "MEDIUM" s false \/ v = Triage.mkVerdict "LOW" s false.
Proof.
  unfold Triage.lambda_handler, bind, lift, ret. intros Hrun.
  repeat match type of Hrun with
         | context [match ?r with Ok _ => _ | Raise _ => _ end] =>
             destruct r; cbn [fst] in Hrun; try discriminate Hrun
         | context [if ?b then _ else _] =>
             destruct b; cbn [fst] in Hrun; try discriminate Hrun
         end;
    injection Hrun as <-; eauto 6.
Qed.

(** C3.  On every event whose enrichment is a record with a numeric (or
    absent) confidence, the classifier returns the score
    [0 + (50 if malicious, else 30 if suspicious) + confidence * 30] and
    the severity that the thresholds 80, 60 and 40 give it, highest first,
    in the arithmetic of the interpreter.  In particular a malicious
    reputation with confidence 0.92 scores 77.6, HIGH, with approval
    required, and a suspicious one with confidence 0.65 scores 49.5,
    MEDIUM, with no approval required. *)
Theorem triage_scoring_policy :
  (forall event context w enr c,
      py_get event "enrichment" (JObj []) = Ok (JObj enr) ->
      confidence_of enr = Some c ->
      let s := spec_score (reputation_of enr) c in
      fst (Triage.lambda_handler event context w) =
        Ok (Triage.mkVerdict (spec_severity s) (json_of_number s)
              (spec_requires_approval (spec_severity s)))) /\
  (forall alert context w,
      fst (Triage.lambda_handler
             (JObj [("alert", alert);
                    ("enrichment", JObj [("reputation", JStr "malicious");
                                         ("confidence", JFloat 0.92)])])
             context w) =
        Ok (Triage.mkVerdict "HIGH" (JFloat 77.6) true)) /\
  (forall alert context w,
      fst (Triage.lambda_handler
             (JObj [("alert", alert);
                    ("enrichment", JObj [("reputation", JStr "suspicious");
                                         ("confidence", JFloat 0.65)])])
             context w) =
        Ok (Triage.mkVerdict "MEDIUM" (JFloat 49.5) false)).
Proof.
  split; [| split].
  - intros event context w enr c Henr Hconf s.
    rewrite (triage_eval event context w enr c Henr Hconf). reflexivity.
  - intros alert context w.
    rewrite (triage_eval
               (JObj [("alert", alert);
                      ("enrichment", JObj [("reputation", JStr "malicious");
                                           ("confidence", JFloat 0.92)])])
               context w
               [("reputation", JStr "malicious"); ("confidence", JFloat 0.92)]
               (NFloat 0.92) eq_refl eq_refl).
    vm_compute. reflexivity.
  - intros alert context w.
    rewrite (triage_eval
               (JObj [("alert", alert);
                      ("enrichment", JObj [("reputation", JStr "suspicious");
                                           ("confidence", JFloat 0.65)])])
               context w
               [("reputation", JStr "suspicious"); ("confidence", JFloat 0.65)]
               (NFloat 0.65) eq_refl eq_refl).
    vm_compute. reflexivity.
Qed.

Lemma triage_scoring_policy_witness :
  fst (Triage.lambda_handler
         (JObj [("alert", JObj [("alert_id", JStr "SEC-2025-001")]);
                ("enrichment", JObj [("indicator", JStr "malicious-site.com");
                                     ("type", JStr "domain");
                                     ("reputation", JStr "malicious");
                                     ("confidence", JFloat 0.98);
                                     ("category", JStr "phishing")])])
         (mkContext "req-1") (mkWorld [] "2025-10-18T12:00:00")) =
    Ok (Triage.mkVerdict "HIGH" (JFloat 79.4) true).
Proof.
  exact (proj1 triage_scoring_policy
           (JObj [("alert", JObj [("alert_id", JStr "SEC-2025-001")]);
                  ("enrichment", JObj [("indicator", JStr "malicious-site.com");
                                       ("type", JStr "domain");
                                       ("reputation", JStr "malicious");
                                       ("confidence", JFloat 0.98);
                                       ("category", JStr "phishing")])])
           (mkContext "req-1") (mkWorld [] "2025-10-18T12:00:00")
           [("indicator", JStr "malicious-site.com");
            ("type", JStr "domain");
            ("reputation", JStr "malicious");
            ("confidence", JFloat 0.98);
            ("category", JStr "phishing")]
           (NFloat 0.98) eq_refl eq_refl).
Defined.

(** C4.  The classifier is deterministic and free of side effects: two
    invocations on the same event return the same verdict (or raise the
    same exception) whatever the Lambda context and the state of the world
    they run in, and an invocation leaves the world as it found it. *)
Theorem triage_deterministic (event : json) (context1 context2 : lambda_context)
    (w1 w2 : world) :
  fst (Triage.lambda_handler event context1 w1) =
    fst (Triage.lambda_handler event context2 w2) /\
  snd (Triage.lambda_handler event context1 w1) = w1.
Proof.
  destruct (triage_effect_free event context1) as [r Hr].
  change (Triage.lambda_handler event context2) with (Triage.lambda_handler event context1).
  rewrite !Hr. split; reflexivity.
Qed.

(** C5.  Whenever the classifier returns a verdict, its
    [requires_approval] flag is true exactly when its severity is HIGH or
    CRITICAL. *)
Theorem triage_requires_approval_iff (event : json) (context : lambda_context)
    (w : world) (v : Triage.verdict) :
  fst (Triage.lambda_handler event context w) = Ok v ->
  (Triage.requires_approval v = true <->
   Triage.severity v = "HIGH" \/ Triage.severity v = "CRITICAL").
Proof.
  intros Hrun.
  destruct (triage_verdict_shape event context w v Hrun) as [s [-> | [-> | [-> | ->]]]];
    cbn [Triage.requires_approval Triage.severity];
    (split; [intros Hflag | intros [Hsev | Hsev]]);
    try discriminate; auto.
Qed.

Lemma triage_requires_approval_iff_witness :
  Triage.requires_approval (Triage.mkVerdict "HIGH" (JFloat 77.6) true) = true <->
  Triage.severity (Triage.mkVerdict "HIGH" (JFloat 77.6) true) = "HIGH" \/
  Triage.severity (Triage.mkVerdict "HIGH" (JFloat 77.6) true) = "CRITICAL".
Proof.
  apply (triage_requires_approval_iff
           (JObj [("alert", JObj []);
                  ("enrichment", JObj [("reputation", JStr "malicious");
                                       ("confidence", JFloat 0.92)])])
           (mkContext "req-1") (mkWorld [] "2025-10-18T12:00:00")).
  vm_compute. reflexivity.
Defined.

(** C10.  When the enrichment's reputation is neither malicious nor
    suspicious and its confidence lies in [[0, 1]], the classifier returns
    LOW with no approval required: the score is [confidence * 30], at most
    30 after rounding, and so below every higher threshold. *)
Theorem triage_low_without_reputation (event : json) (context : lambda_context)
    (w : world) (enr : list (string * json)) (c : number) :
  py_get event "enrichment" (JObj []) = Ok (JObj enr) ->
  py_eq_str (reputation_of enr) "malicious" = false ->
  py_eq_str (reputation_of enr) "suspicious" = false ->
  confidence_of enr = Some c ->
  in_unit_interval c = true ->
  exists s,
    fst (Triage.lambda_handler event context w) =
      Ok (Triage.mkVerdict "LOW" (json_of_number s) false) /\
    number_leb s 30 = true.
Proof.
  intros Henr Hmal Hsus Hconf Hunit.
  rewrite (triage_eval event context w enr c Henr Hconf). cbn [fst].
  exists (spec_score (reputation_of enr) c).
  assert (Hlow : number_leb (spec_score (reputation_of enr) c) 30 = true /\
                 number_geb (spec_score (reputation_of enr) c) 40 = false /\
                 number_geb (spec_score (reputation_of enr) c) 60 = false /\
                 number_geb (spec_score (reputation_of enr) c) 80 = false).
  { unfold spec_score, spec_reputation_points. rewrite Hmal, Hsus.
    change (0 + 0) with 0.
    destruct c as [z | f]; cbn [in_unit_interval number_leb number_geb] in *;
      apply andb_prop in Hunit; destruct Hunit as [Hlo Hhi].
    - apply Z.leb_le in Hlo, Hhi.
      repeat split; [apply Z.leb_le | apply Z.leb_gt ..]; lia.
    - apply float_unit_scaled; assumption. }
  destruct Hlow as (H30 & H40 & H60 & H80).
  unfold spec_severity. rewrite H80, H60, H40. split; [reflexivity | exact H30].
Qed.

Lemma triage_low_without_reputation_witness :
  exists s,
    fst (Triage.lambda_handler
           (JObj [("alert", JObj [("alert_id", JStr "SEC-2025-002")]);
                  ("enrichment", JObj [("reputation", JStr "unknown");
                                       ("confidence", JFloat 1);
                                       ("category", JStr "unknown")])])
           (mkContext "req-2") (mkWorld [] "2025-10-18T12:00:00")) =
      Ok (Triage.mkVerdict "LOW" (json_of_number s) false) /\
    number_leb s 30 = true.
Proof.
  apply (triage_low_without_reputation
           (JObj [("alert", JObj [("alert_id", JStr "SEC-2025-002")]);
                  ("enrichment", JObj [("reputation", JStr "unknown");
                                       ("confidence", JFloat 1);
                                       ("category", JStr "unknown")])])
           (mkContext "req-2") (mkWorld [] "2025-10-18T12:00:00")
           [("reputation", JStr "unknown"); ("confidence", JFloat 1);
            ("category", JStr "unknown")]
           (NFloat 1));
    reflexivity.
Defined.

(** ** Threat-intelligence lookup *)

Lemma threat_data_unlisted (indicator_type indicator : json) :
  py_hashable indicator_type = true ->
  py_hashable indicator = true ->
  listed indicator_type indicator = false ->
  exists lookup_dict,
    py_get_key Enrichment.threat_data indicator_type (JObj []) = Ok lookup_dict /\
    py_get_key lookup_dict indicator Enrichment.unknown_reputation =
      Ok Enrichment.unknown_reputation.
Proof.
  intros Hty Hind Hlisted.
  unfold listed, known_indicators in Hlisted. cbn [existsb] in Hlisted.
  destruct indicator_type as [| | | | t | |]; try discriminate Hty;
    try (eexists; split; [reflexivity |];
         destruct indicator; try discriminate Hind; reflexivity).
  unfold Enrichment.threat_data. cbn [py_get_key assoc py_eq_str] in *.
  repeat match goal with
         | |- context [String.eqb t ?k] => destruct (String.eqb t k) eqn:?
         end;
    (eexists; split; [reflexivity |]);
    (destruct indicator as [| | | | i | |]; try discriminate Hind; try reflexivity);
    cbn [py_get_key assoc py_eq_str andb orb] in *;
    repeat match goal with
           | |- context [String.eqb i ?k] =>
               destruct (String.eqb i k) eqn:?; cbn [andb orb] in Hlisted
           end;
    try reflexivity; discriminate Hlisted.
Qed.

(** C6.  A lookup with a non-empty indicator whose (type, indicator) pair
    the threat-intelligence table does not list does not fail: the handler
    returns status 200 with reputation "unknown", confidence 0.0 and
    category "unknown" for that indicator.  (Indicator and type are
    hashable documents, as strings are.) *)
Theorem enrichment_unknown_indicator `{R : PyRepr} (event : json)
    (context : lambda_context) (w : world) (indicator indicator_type : json) :
  py_get event "indicator" (JStr "") = Ok indicator ->
  py_get event "type" (JStr "ip") = Ok indicator_type ->
  py_truthy indicator = true ->
  py_hashable indicator = true ->
  py_hashable indicator_type = true ->
  listed indicator_type indicator = false ->
  fst (Enrichment.lambda_handler event context w) =
    Ok (mkResponse 200
          (json_dumps
             (JObj [("indicator", indicator);
                    ("type", indicator_type);
                    ("reputation", JStr "unknown");
                    ("confidence", JFloat 0);
                    ("category", JStr "unknown");
                    ("sources", JArr [JStr "Mock Threat Intel DB"])]))).
Proof.
  intros Hind Hty Htruthy Hhash Hhashty Hunlisted.
  destruct (threat_data_unlisted indicator_type indicator Hhashty Hhash Hunlisted)
    as (lookup_dict & Hdict & Hdata).
  unfold Enrichment.lambda_handler, bind, print, lift, ret.
  rewrite Hind, Hty, Htruthy. cbn [negb].
  rewrite Hdict, Hdata. reflexivity.
Qed.

Lemma enrichment_unknown_indicator_witness :
  fst (Enrichment.lambda_handler (R := sample_repr)
         (JObj [("indicator", JStr "8.8.8.8"); ("type", JStr "ip")])
         (mkContext "req-3") (mkWorld [] "2025-10-18T12:00:00")) =
    Ok (mkResponse 200
          (json_dumps
             (JObj [("indicator", JStr "8.8.8.8");
                    ("type", JStr "ip");
                    ("reputation", JStr "unknown");
                    ("confidence", JFloat 0);
                    ("category", JStr "unknown");
                    ("sources", JArr [JStr "Mock Threat Intel DB"])]))).
Proof.
  apply (enrichment_unknown_indicator (R := sample_repr)
           (JObj [("indicator", JStr "8.8.8.8"); ("type", JStr "ip")])
           (mkContext "req-3") (mkWorld [] "2025-10-18T12:00:00")
           (JStr "8.8.8.8") (JStr "ip"));
    reflexivity.
Defined.

(** ** The browser executor *)

(** C9, as the code has it.  For each of the actions "quarantine",
    "isolate" and "block_domain", on an event whose [parameters] entry is
    absent or a mapping, the handler returns status 200 and a record whose
    [success] is true, whatever the mapping holds: the target is the
    action's parameter when present and "unknown" when missing, and no
    failed or partial outcome is produced. *)
Theorem browser_executor_recognised_action `{R : PyRepr} (event : json)
    (context : lambda_context) (w : world) (action : string)
    (params : list (string * json)) :
  py_get event "action" JNull = Ok (JStr action) ->
  In action ["quarantine"; "isolate"; "block_domain"] ->
  py_get event "parameters" (JObj []) = Ok (JObj params) ->
  exists result,
    fst (BrowserExecutor.lambda_handler event context w) =
      Ok (mkResponse 200 (json_dumps (JObj result))) /\
    assoc "success" result = Some (JBool true) /\
    assoc "action" result = Some (JStr action) /\
    assoc "target" result =
      Some (match assoc (target_parameter action) params with
            | Some v => v
            | None => JStr "unknown"
            end).
Proof.
  intros Haction Hin Hparams.
  unfold BrowserExecutor.lambda_handler, bind, print, lift, ret, utcnow_isoformat.
  rewrite Haction, Hparams.
  cbn [In] in Hin.
  destruct Hin as [<- | [<- | [<- | []]]];
    cbn [py_truthy py_eq_str String.eqb Ascii.eqb Bool.eqb negb py_get fst];
    eexists; (split; [reflexivity |]); cbn [assoc String.eqb Ascii.eqb Bool.eqb];
    repeat split; reflexivity.
Qed.

Lemma browser_executor_recognised_action_witness :
  exists result,
    fst (BrowserExecutor.lambda_handler (R := sample_repr)
           (JObj [("action", JStr "isolate"); ("parameters", JObj [])])
           (mkContext "5d2f8b1c-77aa") (mkWorld [] "2025-10-18T12:00:00")) =
      Ok (mkResponse 200 (json_dumps (JObj result))) /\
    assoc "success" result = Some (JBool true) /\
    assoc "action" result = Some (JStr "isolate") /\
    assoc "target" result = Some (JStr "unknown").
Proof.
  apply (browser_executor_recognised_action (R := sample_repr)
           (JObj [("action", JStr "isolate"); ("parameters", JObj [])])
           (mkContext "5d2f8b1c-77aa") (mkWorld [] "2025-10-18T12:00:00")
           "isolate" []).
  - reflexivity.
  - simpl. right. left. reflexivity.
  - reflexivity.
Defined.

(** A [parameters] entry that is not a mapping has no [get]: the handler
    raises instead of answering. *)
Lemma browser_executor_parameters_not_a_mapping `{R : PyRepr}
    (context : lambda_context) (w : world) :
  fst (BrowserExecutor.lambda_handler
         (JObj [("action", JStr "quarantine"); ("parameters", JNull)]) context w) =
    Raise AttributeError.
Proof. reflexivity. Qed.

(** C9, as stated, fails: a quarantine request whose [parameters] entry
    is [null] is not answered with status 200; [params.get] raises
    [AttributeError]. *)
Lemma browser_executor_null_parameters_not_answered :
  fst (BrowserExecutor.lambda_handler (R := sample_repr)
         (JObj [("action", JStr "quarantine"); ("parameters", JNull)])
         (mkContext "5d2f8b1c-77aa") (mkWorld [] "2025-10-18T12:00:00")) =
    Raise AttributeError /\
  ~ (exists resp,
        fst (BrowserExecutor.lambda_handler (R := sample_repr)
               (JObj [("action", JStr "quarantine"); ("parameters", JNull)])
               (mkContext "5d2f8b1c-77aa") (mkWorld [] "2025-10-18T12:00:00")) =
          Ok resp /\
        statusCode resp = 200).
Proof.
  split; [reflexivity |].
  intros (resp & Hresp & _). discriminate Hresp.
Qed.

(** The executor's answer is a function of the event's action and
    parameters, the clock reading and the first eight characters of the
    request id. *)
Lemma browser_executor_agreeing_inputs `{R : PyRepr} (event1 event2 : json)
    (context1 context2 : lambda_context) (w1 w2 : world) :
  py_get event1 "action" JNull = py_get event2 "action" JNull ->
  py_get event1 "parameters" (JObj []) = py_get event2 "parameters" (JObj []) ->
  clock w1 = clock w2 ->
  substring 0 8 (aws_request_id context1) = substring 0 8 (aws_request_id context2) ->
  fst (BrowserExecutor.lambda_handler event1 context1 w1) =
    fst (BrowserExecutor.lambda_handler event2 context2 w2).
Proof.
  intros Haction Hparams Hclock Hreq.
  unfold BrowserExecutor.lambda_handler, bind, print, lift, ret, utcnow_isoformat.
  rewrite Haction, Hparams.
  destruct (py_get event2 "action" JNull) as [action | e]; [| reflexivity].
  destruct (py_get event2 "parameters" (JObj [])) as [params | e]; [| reflexivity].
  destruct (negb (py_truthy action)); [reflexivity |].
  destruct (py_eq_str action "quarantine");
    [| destruct (py_eq_str action "isolate");
       [| destruct (py_eq_str action "block_domain")]];
    repeat match goal with
           | |- context [match py_get params ?k ?d with Ok _ => _ | Raise _ => _ end] =>
               destruct (py_get params k d)
           end;
    cbn [clock fst]; rewrite ?Hclock, ?Hreq; reflexivity.
Qed.

(** The record of an executed action carries the clock reading, and the
    record of a quarantine the first eight characters of the request id:
    two executions with identical answers agree on them. *)
Lemma browser_executor_identical_answers `{R : PyRepr} (event1 event2 : json)
    (context1 context2 : lambda_context) (w1 w2 : world) (action : string)
    (params : list (string * json)) :
  py_get event1 "action" JNull = Ok (JStr action) ->
  py_get event2 "action" JNull = Ok (JStr action) ->
  In action ["quarantine"; "isolate"; "block_domain"] ->
  py_get event1 "parameters" (JObj []) = Ok (JObj params) ->
  py_get event2 "parameters" (JObj []) = Ok (JObj params) ->
  fst (BrowserExecutor.lambda_handler event1 context1 w1) =
    fst (BrowserExecutor.lambda_handler event2 context2 w2) ->
  clock w1 = clock w2 /\
  (action = "quarantine" ->
   substring 0 8 (aws_request_id context1) = substring 0 8 (aws_request_id context2)).
Proof.
  intros Ha1 Ha2 Hin Hp1 Hp2.
  unfold BrowserExecutor.lambda_handler, bind, print, lift, ret, utcnow_isoformat.
  rewrite Ha1, Ha2, Hp1, Hp2.
  cbn [In] in Hin.
  destruct Hin as [<- | [<- | [<- | []]]];
    cbn [py_truthy py_eq_str String.eqb Ascii.eqb Bool.eqb negb py_get fst clock
         String.append];
    unfold json_dumps; intros Heq;
    (split; [congruence | intros Hq; first [congruence | discriminate Hq]]).
Qed.

(** C1, as the code has it.  The executor reads no [actionId] and keeps no
    record of earlier invocations: its answer is determined by the
    event's action and parameters, the clock reading and the first eight
    characters of the request id.  Two invocations with the same action and
    parameters that agree on the clock reading and on these characters
    return the identical response, whatever else the events hold and
    whatever was done before.  Conversely, when the action is one of the
    three recognised ones and the parameters are a mapping, they return
    identical responses only if their clock readings agree and, for a
    quarantine, so do the first eight characters of their request ids. *)
Theorem browser_executor_response_determined `{R : PyRepr} (event1 event2 : json)
    (context1 context2 : lambda_context) (w1 w2 : world) :
  py_get event1 "action" JNull = py_get event2 "action" JNull ->
  py_get event1 "parameters" (JObj []) = py_get event2 "parameters" (JObj []) ->
  (clock w1 = clock w2 ->
   substring 0 8 (aws_request_id context1) = substring 0 8 (aws_request_id context2) ->
   fst (BrowserExecutor.lambda_handler event1 context1 w1) =
     fst (BrowserExecutor.lambda_handler event2 context2 w2)) /\
  (forall (action : string) (params : list (string * json)),
      py_get event1 "action" JNull = Ok (JStr action) ->
      In action ["quarantine"; "isolate"; "block_domain"] ->
      py_get event1 "parameters" (JObj []) = Ok (JObj params) ->
      fst (BrowserExecutor.lambda_handler event1 context1 w1) =
        fst (BrowserExecutor.lambda_handler event2 context2 w2) ->
      clock w1 = clock w2 /\
      (action = "quarantine" ->
       substring 0 8 (aws_request_id context1) =
         substring 0 8 (aws_request_id context2))).
Proof.
  intros Haction Hparams. split.
  - intros Hclock Hreq.
    exact (browser_executor_agreeing_inputs event1 event2 context1 context2 w1 w2
             Haction Hparams Hclock Hreq).
  - intros action params Ha Hin Hp Hsame.
    apply (browser_executor_identical_answers event1 event2 context1 context2 w1 w2
             action params); try assumption.
    + rewrite <- Haction. exact Ha.
    + rewrite <- Hparams. exact Hp.
Qed.

Lemma browser_executor_response_determined_witness :
  (clock (mkWorld [] "2025-10-18T12:00:00.251340") =
     clock (mkWorld ["an earlier line"] "2025-10-18T12:00:07.251977") ->
   substring 0 8 (aws_request_id (mkContext "3f1c2a9e-0001")) =
     substring 0 8 (aws_request_id (mkContext "9b7d4e10-0002")) ->
   fst (BrowserExecutor.lambda_handler (R := sample_repr) repeated_event
          (mkContext "3f1c2a9e-0001") (mkWorld [] "2025-10-18T12:00:00.251340")) =
     fst (BrowserExecutor.lambda_handler (R := sample_repr)
            (JObj [("action", JStr "quarantine");
                   ("parameters", JObj [("target_ip", JStr "10.0.0.50");
                                        ("reason", JStr "malware host")]);
                   ("actionId", JStr "act-0002")])
            (mkContext "9b7d4e10-0002")
            (mkWorld ["an earlier line"] "2025-10-18T12:00:07.251977"))) /\
  (forall (action : string) (params : list (string * json)),
      py_get repeated_event "action" JNull = Ok (JStr action) ->
      In action ["quarantine"; "isolate"; "block_domain"] ->
      py_get repeated_event "parameters" (JObj []) = Ok (JObj params) ->
      fst (BrowserExecutor.lambda_handler (R := sample_repr) repeated_event
             (mkContext "3f1c2a9e-0001") (mkWorld [] "2025-10-18T12:00:00.251340")) =
        fst (BrowserExecutor.lambda_handler (R := sample_repr)
               (JObj [("action", JStr "quarantine");
                      ("parameters", JObj [("target_ip", JStr "10.0.0.50");
                                           ("reason", JStr "malware host")]);
                      ("actionId", JStr "act-0002")])
               (mkContext "9b7d4e10-0002")
               (mkWorld ["an earlier line"] "2025-10-18T12:00:07.251977")) ->
      clock (mkWorld [] "2025-10-18T12:00:00.251340") =
        clock (mkWorld ["an earlier line"] "2025-10-18T12:00:07.251977") /\
      (action = "quarantine" ->
       substring 0 8 (aws_request_id (mkContext "3f1c2a9e-0001")) =
         substring 0 8 (aws_request_id (mkContext "9b7d4e10-0002")))).
Proof.
  apply (browser_executor_response_determined (R := sample_repr) repeated_event
           (JObj [("action", JStr "quarantine");
                  ("parameters", JObj [("target_ip", JStr "10.0.0.50");
                                       ("reason", JStr "malware host")]);
                  ("actionId", JStr "act-0002")])
           (mkContext "3f1c2a9e-0001") (mkContext "9b7d4e10-0002")
           (mkWorld [] "2025-10-18T12:00:00.251340")
           (mkWorld ["an earlier line"] "2025-10-18T12:00:07.251977"));
    reflexivity.
Defined.

(** C1, as stated, fails: the same request, with the same [actionId],
    handled a second time seven seconds later under another request id is
    executed again (status 200 both times) and yields a record that
    differs from the first one. *)
Lemma browser_executor_repeats_action :
  exists first second,
    fst (BrowserExecutor.lambda_handler (R := sample_repr) repeated_event
           (mkContext "3f1c2a9e-0001") (mkWorld [] "2025-10-18T12:00:00.251340")) =
      Ok first /\
    fst (BrowserExecutor.lambda_handler (R := sample_repr) repeated_event
           (mkContext "9b7d4e10-0002")
           (mkWorld
              (stdout (snd (BrowserExecutor.lambda_handler (R := sample_repr)
                              repeated_event (mkContext "3f1c2a9e-0001")
                              (mkWorld [] "2025-10-18T12:00:00.251340"))))
              "2025-10-18T12:00:07.251977")) =
      Ok second /\
    statusCode first = 200 /\ statusCode second = 200 /\
    body second <> body first.
Proof.
  eexists. eexists.
  split; [vm_compute; reflexivity |].
  split; [vm_compute; reflexivity |].
  split; [reflexivity |]. split; [reflexivity |].
  cbn [body]. intros Heq. discriminate Heq.
Qed.

(** ** The AgentCore executor *)

Ltac run_step service :=
  match goal with
  | |- context [service ?c ?b] => destruct (service c b) as [? ?] eqn:?
  | |- context [match ?r with Ok _ => _ | Raise _ => _ end] => destruct r eqn:?
  | |- context [if ?b then _ else _] => destruct b eqn:?
  end; cbn [fst snd NovaExecutor.calls NovaExecutor.session_id
            NovaExecutor.service_state NovaExecutor.log].

Ltac no_session H :=
  destruct H as (agent & config & resp & Hin & Hsid);
  repeat (apply in_app_or in Hin; destruct Hin as [Hin | Hin]);
  cbn [In] in Hin;
  repeat match type of Hin with
         | _ \/ _ => destruct Hin as [Hin | Hin]
         | False => destruct Hin
         | (_, _) = (_, _) => injection Hin as ? ?; subst
         end;
  try discriminate; try congruence.

(** C7.  Whatever the event and whatever the service answers or raises,
    a session that an invocation acquired (a [create_browser_session]
    call returned its id, a non-empty one) is released by the cleanup in
    the [finally] block: the last client call of the invocation deletes
    that session, also when the action raised. *)
Theorem nova_session_released `{R : PyRepr} (B : Type)
    (service : NovaExecutor.call -> B -> result json * B) (b : B)
    (event : json) (context : lambda_context) (sid : json) :
  acquired (invocation_trace service b event context) sid ->
  py_truthy sid = true ->
  released_last (invocation_trace service b event context) sid.
Proof.
  unfold invocation_trace, NovaExecutor.lambda_handler, NovaExecutor.init,
    NovaExecutor.quarantine_host, NovaExecutor.cleanup, NovaExecutor.client,
    NovaExecutor.logger_info, NovaExecutor.set_session_id,
    NovaExecutor.get_session_id, try_finally, bind, lift, ret.
  cbn [fst snd NovaExecutor.calls NovaExecutor.session_id
       NovaExecutor.service_state NovaExecutor.log].
  repeat run_step service; intros Hacq Htruthy.
  all: try (exfalso; no_session Hacq; fail).
  all: no_session Hacq.
  all: match goal with
       | H1 : py_subscript ?r ?k = Ok _, H2 : py_subscript ?r ?k = Ok _ |- _ =>
           rewrite H1 in H2; injection H2 as ?; subst
       end.
  all: eexists; eexists; reflexivity.
Qed.

Lemma nova_session_released_witness :
  released_last
    (invocation_trace (R := sample_repr) failing_service tt
       (JObj [("action", JStr "quarantine");
              ("parameters", JObj [("target_ip", JStr "10.0.0.50");
                                   ("reason", JStr "malware host")])])
       (mkContext "77aa5d2f-0001"))
    (JStr "sess-42").
Proof.
  apply (nova_session_released (R := sample_repr) unit failing_service tt).
  - exists "security-runbook-agent",
      (JObj [("recordSession", JBool true); ("enableScreenshots", JBool true);
             ("sessionTimeout", JInt 300)]),
      (JObj [("sessionId", JStr "sess-42")]).
    split; [vm_compute; left; reflexivity | reflexivity].
  - reflexivity.
Defined.

(** The same invocation raises the service's error after the cleanup. *)
Lemma nova_failing_action_raises :
  fst (NovaExecutor.lambda_handler (R := sample_repr) unit failing_service
         (JObj [("action", JStr "quarantine");
                ("parameters", JObj [("target_ip", JStr "10.0.0.50");
                                     ("reason", JStr "malware host")])])
         (mkContext "77aa5d2f-0001") (NovaExecutor.mkState JNull tt [] [])) =
    Raise (ClientError "ThrottlingException").
Proof. reflexivity. Qed.

(** ** The approval tool *)

(** C2, as the code has it.  The approval tool takes no decision and no
    timeout: it returns [True] for every target, severity and reason, so
    every request is approved at once; no request expires or is denied. *)
Theorem approval_always_granted (target severity reason : string)
    (out : list string) :
  fst (SecurityAgent.request_quarantine_approval target severity reason out) = Ok true.
Proof.
  unfold SecurityAgent.request_quarantine_approval, SecurityAgent.logger_info, bind, ret.
  destruct (SecurityAgent.in_list severity ["HIGH"; "CRITICAL"]); reflexivity.
Qed.

(** C2, as stated, fails: a HIGH-severity request on which no decision
    was ever delivered is approved, not denied. *)
Lemma approval_not_fail_closed :
  ~ fail_closed None
      (fst (SecurityAgent.request_quarantine_approval
              "10.0.0.50" "HIGH" "malware host" [])).
Proof.
  unfold fail_closed. intros Hclosed. apply Hclosed; reflexivity.
Qed.


(** * Further properties of the handlers *)

(** ** The severity classifier: when it answers, and on what *)

(** A verdict is returned only on a dict whose enrichment is a dict with a
    numeric or absent confidence. *)
Lemma triage_returns_inv (event : json) (context : lambda_context) (w : world)
    (v : Triage.verdict) :
  fst (Triage.lambda_handler event context w) = Ok v ->
  exists enr n,
    py_get event "enrichment" (JObj []) = Ok (JObj enr) /\ confidence_of enr = Some n.
Proof.
  destruct event as [| | | | | | m]; try discriminate.
  unfold Triage.lambda_handler, bind, lift, ret. cbn [py_get].
  destruct (match assoc "enrichment" m with Some x => x | None => JObj [] end)
    as [| | | | | | enr]; try discriminate.
  cbn [py_get]. intros Hrun. exists enr. unfold confidence_of.
  destruct (assoc "confidence" enr) as [[| b | z | f | s | l | o] |];
    try discriminate Hrun; eauto.
Qed.

Lemma triage_raises_kind (event : json) (context : lambda_context) (w : world)
    (e : exn) :
  fst (Triage.lambda_handler event context w) = Raise e ->
  e = AttributeError \/ e = TypeError.
Proof.
  destruct event as [| | | | | | m]; try (cbn; intros [= <-]; auto; fail).
  unfold Triage.lambda_handler, bind, lift, ret. cbn [py_get].
  destruct (match assoc "enrichment" m with Some x => x | None => JObj [] end)
    as [| | | | | | enr]; try (cbn; intros [= <-]; auto; fail).
  cbn [py_get].
  destruct (match assoc "confidence" enr with Some x => x | None => JInt 0 end)
    as [| b | z | f | s | l | o];
    cbn [py_mul_int py_int_add py_ge_int fst];
    repeat match goal with
           | |- context [if ?b then _ else _] => destruct b
           end;
    cbn [fst]; intros [= <-]; auto.
Qed.

(** X1.  The classifier returns a verdict exactly on the events that are
    a dict whose enrichment (the empty dict when absent) is a dict with a
    confidence that is absent, a number or a bool; on every other event it
    raises [AttributeError] or [TypeError], nothing else. *)
Theorem triage_returns_iff (event : json) (context : lambda_context) (w : world) :
  ((exists v, fst (Triage.lambda_handler event context w) = Ok v) <->
   (exists enr n,
       py_get event "enrichment" (JObj []) = Ok (JObj enr) /\
       confidence_of enr = Some n)) /\
  (forall e, fst (Triage.lambda_handler event context w) = Raise e ->
             e = AttributeError \/ e = TypeError).
Proof.
  split; [split |].
  - intros [v Hv]. exact (triage_returns_inv event context w v Hv).
  - intros (enr & n & Henr & Hconf).
    rewrite (triage_eval event context w enr n Henr Hconf). cbn [fst]. eauto.
  - intros e. apply triage_raises_kind.
Qed.

(** X2.  The verdict depends on nothing but the enrichment's reputation
    and confidence entries: two events whose enrichments agree on these
    two keys get the same outcome, whatever their alerts, their other
    enrichment fields, the context and the world. *)
Theorem triage_reads_reputation_and_confidence_only (event1 event2 : json)
    (context1 context2 : lambda_context) (w1 w2 : world)
    (enr1 enr2 : list (string * json)) :
  py_get event1 "enrichment" (JObj []) = Ok (JObj enr1) ->
  py_get event2 "enrichment" (JObj []) = Ok (JObj enr2) ->
  assoc "reputation" enr1 = assoc "reputation" enr2 ->
  assoc "confidence" enr1 = assoc "confidence" enr2 ->
  fst (Triage.lambda_handler event1 context1 w1) =
    fst (Triage.lambda_handler event2 context2 w2).
Proof.
  intros H1 H2 Hrep Hconf.
  destruct (triage_effect_free event1 context1) as [r1 Hr1].
  destruct (triage_effect_free event2 context2) as [r2 Hr2].
  rewrite Hr1, Hr2. cbn [fst].
  assert (Hsame : Triage.lambda_handler event1 context1 w1 =
                  Triage.lambda_handler event2 context2 w1).
  { destruct event1 as [| | | | | | m1]; try discriminate H1.
    destruct event2 as [| | | | | | m2]; try discriminate H2.
    unfold Triage.lambda_handler, bind, lift, ret.
    cbn [py_get] in *. injection H1 as H1. injection H2 as H2.
    rewrite H1, H2. cbn [py_get]. rewrite Hrep, Hconf. reflexivity. }
  rewrite Hr1, Hr2 in Hsame. congruence.
Qed.

Lemma triage_reads_reputation_and_confidence_only_witness :
  fst (Triage.lambda_handler
         (JObj [("alert", JObj [("alert_id", JStr "SEC-2025-001")]);
                ("enrichment", JObj [("reputation", JStr "malicious");
                                     ("confidence", JFloat 0.92);
                                     ("category", JStr "malware_host")])])
         (mkContext "req-1") (mkWorld [] "2025-10-18T12:00:00")) =
  fst (Triage.lambda_handler
         (JObj [("enrichment", JObj [("confidence", JFloat 0.92);
                                     ("reputation", JStr "malicious")])])
         (mkContext "req-2") (mkWorld ["a line"] "2025-10-19T08:30:00")).
Proof.
  apply (triage_reads_reputation_and_confidence_only _ _ _ _ _ _
           [("reputation", JStr "malicious"); ("confidence", JFloat 0.92);
            ("category", JStr "malware_host")]
           [("confidence", JFloat 0.92); ("reputation", JStr "malicious")]);
    reflexivity.
Defined.

(** X3.  An event without any usable enrichment data (no [enrichment]
    entry, or one with neither a reputation nor a confidence) is classified
    LOW with the integer score 0 and no approval. *)
Theorem triage_without_enrichment_data (event : json) (context : lambda_context)
    (w : world) (enr : list (string * json)) :
  py_get event "enrichment" (JObj []) = Ok (JObj enr) ->
  assoc "reputation" enr = None ->
  assoc "confidence" enr = None ->
  fst (Triage.lambda_handler event context w) =
    Ok (Triage.mkVerdict "LOW" (JInt 0) false).
Proof.
  intros Henr Hrep Hconf.
  rewrite (triage_eval event context w enr (NInt 0) Henr);
    [| unfold confidence_of; rewrite Hconf; reflexivity].
  unfold reputation_of. rewrite Hrep. reflexivity.
Qed.

Lemma triage_without_enrichment_data_witness :
  fst (Triage.lambda_handler (JObj []) (mkContext "req-1")
         (mkWorld [] "2025-10-18T12:00:00")) =
    Ok (Triage.mkVerdict "LOW" (JInt 0) false).
Proof.
  apply (triage_without_enrichment_data (JObj []) (mkContext "req-1")
           (mkWorld [] "2025-10-18T12:00:00") []);
    reflexivity.
Defined.

(** A binary64 number that reaches 80 reaches 60. *)
Lemma float_geb_80_60 (f : float) :
  PrimFloat.leb (float_of_Z 80) f = true -> PrimFloat.leb (float_of_Z 60) f = true.
Proof.
  rewrite !leb_spec.
  replace (Prim2SF (float_of_Z 80)) with (S754_finite false 5629499534213120 (-46))
    by (vm_compute; reflexivity).
  replace (Prim2SF (float_of_Z 60)) with (S754_finite false 8444249301319680 (-47))
    by (vm_compute; reflexivity).
  destruct (Prim2SF f) as [sg | sg | | sg m e];
    try (destruct sg; cbn; congruence); try (cbn; congruence).
  destruct sg; [cbn; congruence |].
  unfold SFleb, SFcompare.
  destruct (Z.compare_spec (-46) e) as [Heq | Hlt | Hgt]; try discriminate.
  - subst e. intros _. reflexivity.
  - intros _. replace (-47 ?= e) with Lt by (symmetry; apply Z.compare_lt_iff; lia).
    reflexivity.
Qed.

(** X4.  A verdict is consistent with the score it carries: the score is
    a number, the severity is the one the thresholds 80, 60 and 40 give
    that score, and approval is required exactly when the score reaches
    60. *)
Theorem triage_verdict_follows_score (event : json) (context : lambda_context)
    (w : world) (v : Triage.verdict) :
  fst (Triage.lambda_handler event context w) = Ok v ->
  exists n,
    Triage.score v = json_of_number n /\
    Triage.severity v = spec_severity n /\
    Triage.requires_approval v = number_geb n 60.
Proof.
  intros Hrun.
  destruct (triage_returns_inv event context w v Hrun) as (enr & c & Henr & Hconf).
  rewrite (triage_eval event context w enr c Henr Hconf) in Hrun.
  cbn [fst] in Hrun. injection Hrun as <-.
  exists (spec_score (reputation_of enr) c).
  cbn [Triage.score Triage.severity Triage.requires_approval].
  split; [reflexivity | split; [reflexivity |]].
  unfold spec_severity.
  destruct (number_geb (spec_score (reputation_of enr) c) 80) eqn:H80.
  - symmetry. destruct (spec_score (reputation_of enr) c) as [z | f];
      cbn [number_geb] in *.
    + apply Z.leb_le in H80. apply Z.leb_le. lia.
    + apply float_geb_80_60. exact H80.
  - destruct (number_geb (spec_score (reputation_of enr) c) 60); [reflexivity |].
    destruct (number_geb (spec_score (reputation_of enr) c) 40); reflexivity.
Qed.

Lemma triage_verdict_follows_score_witness :
  exists n,
    Triage.score (Triage.mkVerdict "MEDIUM" (JFloat 49.5) false) = json_of_number n /\
    Triage.severity (Triage.mkVerdict "MEDIUM" (JFloat 49.5) false) = spec_severity n /\
    Triage.requires_approval (Triage.mkVerdict "MEDIUM" (JFloat 49.5) false) =
      number_geb n 60.
Proof.
  apply (triage_verdict_follows_score
           (JObj [("alert", JObj []);
                  ("enrichment", JObj [("reputation", JStr "suspicious");
                                       ("confidence", JFloat 0.65)])])
           (mkContext "req-1") (mkWorld [] "2025-10-18T12:00:00")).
  vm_compute. reflexivity.
Defined.

(** X5.  The confidence is not clamped to [[0, 1]].  Whatever the
    reputation, an integer confidence of 3 or more is classified CRITICAL
    with approval required, and an integer confidence of -1 or less is
    classified LOW with none. *)
Theorem triage_confidence_not_clamped (event : json) (context : lambda_context)
    (w : world) (enr : list (string * json)) (z : Z) :
  py_get event "enrichment" (JObj []) = Ok (JObj enr) ->
  assoc "confidence" enr = Some (JInt z) ->
  (3 <= z ->
   exists s, fst (Triage.lambda_handler event context w) =
               Ok (Triage.mkVerdict "CRITICAL" s true)) /\
  (z <= -1 ->
   exists s, fst (Triage.lambda_handler event context w) =
               Ok (Triage.mkVerdict "LOW" s false)).
Proof.
  intros Henr Hconf.
  assert (Hc : confidence_of enr = Some (NInt z))
    by (unfold confidence_of; rewrite Hconf; reflexivity).
  rewrite (triage_eval event context w enr (NInt z) Henr Hc). cbn [fst].
  assert (Hpts : 0 <= spec_reputation_points (reputation_of enr) <= 50).
  { unfold spec_reputation_points.
    destruct (py_eq_str (reputation_of enr) "malicious"); [lia |].
    destruct (py_eq_str (reputation_of enr) "suspicious"); lia. }
  unfold spec_score, spec_severity. cbn [number_geb].
  split; intros Hz.
  - replace (80 <=? 0 + spec_reputation_points (reputation_of enr) + z * 30) with true
      by (symmetry; apply Z.leb_le; lia).
    eexists. reflexivity.
  - replace (80 <=? 0 + spec_reputation_points (reputation_of enr) + z * 30) with false
      by (symmetry; apply Z.leb_gt; lia).
    replace (60 <=? 0 + spec_reputation_points (reputation_of enr) + z * 30) with false
      by (symmetry; apply Z.leb_gt; lia).
    replace (40 <=? 0 + spec_reputation_points (reputation_of enr) + z * 30) with false
      by (symmetry; apply Z.leb_gt; lia).
    eexists. reflexivity.
Qed.

Lemma triage_confidence_not_clamped_witness :
  (3 <= 3 ->
   exists s,
     fst (Triage.lambda_handler
            (JObj [("enrichment", JObj [("reputation", JStr "unknown");
                                        ("confidence", JInt 3)])])
            (mkContext "req-1") (mkWorld [] "2025-10-18T12:00:00")) =
       Ok (Triage.mkVerdict "CRITICAL" s true)) /\
  (3 <= -1 ->
   exists s,
     fst (Triage.lambda_handler
            (JObj [("enrichment", JObj [("reputation", JStr "unknown");
                                        ("confidence", JInt 3)])])
            (mkContext "req-1") (mkWorld [] "2025-10-18T12:00:00")) =
       Ok (Triage.mkVerdict "LOW" s false)).
Proof.
  apply (triage_confidence_not_clamped
           (JObj [("enrichment", JObj [("reputation", JStr "unknown");
                                       ("confidence", JInt 3)])])
           (mkContext "req-1") (mkWorld [] "2025-10-18T12:00:00")
           [("reputation", JStr "unknown"); ("confidence", JInt 3)] 3);
    reflexivity.
Defined.

(** X6.  A confidence that is not a number ([NaN], which [json.loads]
    accepts) passes no threshold: the verdict is LOW with no approval,
    also for a malicious reputation. *)
Theorem triage_nan_confidence_is_low (event : json) (context : lambda_context)
    (w : world) (enr : list (string * json)) :
  py_get event "enrichment" (JObj []) = Ok (JObj enr) ->
  assoc "confidence" enr = Some (JFloat nan) ->
  fst (Triage.lambda_handler event context w) =
    Ok (Triage.mkVerdict "LOW" (JFloat nan) false).
Proof.
  intros Henr Hconf.
  assert (Hc : confidence_of enr = Some (NFloat nan))
    by (unfold confidence_of; rewrite Hconf; reflexivity).
  rewrite (triage_eval event context w enr (NFloat nan) Henr Hc). cbn [fst].
  unfold spec_score, spec_reputation_points.
  destruct (py_eq_str (reputation_of enr) "malicious");
    [| destruct (py_eq_str (reputation_of enr) "suspicious")];
    vm_compute; reflexivity.
Qed.

Lemma triage_nan_confidence_is_low_witness :
  fst (Triage.lambda_handler
         (JObj [("enrichment", JObj [("reputation", JStr "malicious");
                                     ("confidence", JFloat nan)])])
         (mkContext "req-1") (mkWorld [] "2025-10-18T12:00:00")) =
    Ok (Triage.mkVerdict "LOW" (JFloat nan) false).
Proof.
  apply (triage_nan_confidence_is_low
           (JObj [("enrichment", JObj [("reputation", JStr "malicious");
                                       ("confidence", JFloat nan)])])
           (mkContext "req-1") (mkWorld [] "2025-10-18T12:00:00")
           [("reputation", JStr "malicious"); ("confidence", JFloat nan)]);
    reflexivity.
Defined.

(** ** Rounding between representable bounds

    The rounding lemmas above bound a product by thirty.  The same
    argument gives, for any exact value between two binary64 numbers, a
    rounded result between them; it is used for the sums [30 + x] and
    [50 + x] of the classifier. *)

Lemma round_aux_upper (mx ex U eu : Z) :
  0 < mx -> ex <= eu -> -1074 <= eu <= 971 -> 0 < U < 2 ^ 53 ->
  ex <= fexp prec emax (Zdigits2 mx + ex) ->
  mx <= U * 2 ^ (eu - ex) ->
  binary_round_aux prec emax false mx ex loc_Exact = S754_zero false \/
  exists m e,
    binary_round_aux prec emax false mx ex loc_Exact = S754_finite false m e /\
    (e < eu \/ (e = eu /\ Zpos m <= U)).
Proof.
  intros Hmx Hex Heu HU Hcan Hle.
  unfold binary_round_aux, shr_fexp.
  set (e1 := fexp prec emax (Zdigits2 mx + ex)) in *.
  assert (Hpow : forall k, 0 <= k -> 0 < 2 ^ k) by (intros; apply Z.pow_pos_nonneg; lia).
  assert (He1 : e1 <= eu).
  { assert (Zdigits2 mx <= 53 + (eu - ex)).
    { apply Zdigits2_le; [lia |]. split; [lia |].
      rewrite pow2_split by lia. specialize (Hpow (eu - ex)). nia. }
    subst e1. unfold fexp, SpecFloat.emin, prec, emax. lia. }
  destruct (shr_spec (shr_record_of_loc mx loc_Exact) ex (e1 - ex))
    as (mrs1 & Hs1 & Hm1 & Hx1); [cbn; lia |].
  rewrite Hs1. cbn [shr_record_of_loc shr_m] in Hm1, Hx1.
  replace (Z.max (e1 - ex) 0) with (e1 - ex) in * by lia.
  replace (ex + (e1 - ex)) with e1 by lia.
  assert (Hsplit : 2 ^ (eu - ex) = 2 ^ (eu - e1) * 2 ^ (e1 - ex)).
  { rewrite <- pow2_split by lia. f_equal. lia. }
  assert (Hm1lo : 0 <= shr_m mrs1)
    by (rewrite Hm1; apply Z.div_pos; [lia | apply Hpow; lia]).
  assert (Hm1hi : shr_m mrs1 <= U * 2 ^ (eu - e1)).
  { rewrite Hm1. apply Z.div_le_upper_bound; [apply Hpow; lia |].
    rewrite Hsplit in Hle. lia. }
  pose proof (round_nearest_even_bounds (shr_m mrs1) (loc_of_shr_record mrs1)) as Hr.
  set (mr := round_nearest_even (shr_m mrs1) (loc_of_shr_record mrs1)) in *.
  set (e2 := fexp prec emax (Zdigits2 mr + e1)).
  destruct (shr_spec (shr_record_of_loc mr loc_Exact) e1 (e2 - e1))
    as (mrs2 & Hs2 & Hm2 & _); [cbn; lia |].
  rewrite Hs2. cbn [shr_record_of_loc shr_m] in Hm2.
  assert (Hm2lo : 0 <= shr_m mrs2)
    by (rewrite Hm2; apply Z.div_pos; [lia | apply Hpow; lia]).
  destruct (Z_lt_le_dec e1 eu) as [Hbelow | Hat].
  - (* the first shift stops below the bound's exponent *)
    assert (Hk : 2 <= 2 ^ (eu - e1)).
    { change 2 with (2 ^ 1) at 1. apply Z.pow_le_mono_r; lia. }
    assert (He2 : e2 <= eu).
    { assert (Zdigits2 mr <= 53 + (eu - e1)).
      { apply Zdigits2_le; [lia |]. split; [lia |].
        rewrite pow2_split by lia. nia. }
      subst e2. unfold fexp, SpecFloat.emin, prec, emax. lia. }
    destruct (shr_m mrs2) as [| p | p] eqn:Hp; [left; reflexivity | | lia].
    right.
    replace (e1 + Z.max (e2 - e1) 0 <=? emax - prec) with true
      by (symmetry; apply Z.leb_le; unfold emax, prec; lia).
    exists p, (e1 + Z.max (e2 - e1) 0). split; [reflexivity |].
    destruct (Z_lt_le_dec (e1 + Z.max (e2 - e1) 0) eu) as [Hlt | Hge];
      [left; exact Hlt | right].
    split; [lia |].
    assert (He2' : e2 = eu) by lia.
    replace (Z.max (e2 - e1) 0) with (eu - e1) in * by lia.
    assert (Zpos p < U + 1); [| lia].
    rewrite Hm2. apply Z.div_lt_upper_bound; [apply Hpow; lia |]. nia.
  - (* the first shift reaches the bound's exponent *)
    assert (He1' : e1 = eu) by lia.
    replace (eu - e1) with 0 in * by lia. rewrite Z.pow_0_r, Z.mul_1_r in Hm1hi.
    assert (Hmr : mr <= U).
    { destruct (Z_lt_le_dec (shr_m mrs1) U) as [Hlow | Htop]; [lia |].
      assert (Hexact : inexact mrs1 = false).
      { apply Hx1; [| reflexivity].
        exists U.
        assert (Heq : shr_m mrs1 = U) by lia.
        rewrite Hm1 in Heq.
        pose proof (Z.mul_div_le mx (2 ^ (e1 - ex)) (Hpow (e1 - ex) ltac:(lia))) as Hd.
        rewrite Heq in Hd. rewrite Hsplit, Z.mul_1_l in Hle. lia. }
      unfold mr. rewrite round_exact by assumption. lia. }
    assert (He2 : e2 <= e1).
    { assert (Zdigits2 mr <= 53) by (apply Zdigits2_le; lia).
      subst e2. unfold fexp, SpecFloat.emin, prec, emax. lia. }
    replace (Z.max (e2 - e1) 0) with 0 in * by lia.
    rewrite Z.pow_0_r, Z.div_1_r in Hm2. rewrite Z.add_0_r.
    destruct (shr_m mrs2) as [| p | p] eqn:Hp; [left; reflexivity | | lia].
    right.
    replace (e1 <=? emax - prec) with true
      by (symmetry; apply Z.leb_le; unfold emax, prec; lia).
    exists p, e1. split; [reflexivity |]. right. split; lia.
Qed.

Lemma Zdigits2_pos_eq (m k : Z) :
  0 <= k -> 2 ^ k <= m < 2 ^ (k + 1) -> Zdigits2 m = k + 1.
Proof.
  intros Hk [Hlo Hhi].
  assert (0 < 2 ^ k) by (apply Z.pow_pos_nonneg; lia).
  assert (Hle : Zdigits2 m <= k + 1) by (apply Zdigits2_le; lia).
  destruct m as [| p | p]; try lia.
  cbn [Zdigits2] in *. pose proof (Zdigits2_ge p k Hk Hlo). lia.
Qed.

Lemma round_aux_lower (mx ex L el : Z) :
  0 < mx -> ex <= el -> -1074 <= el -> 2 ^ 52 <= L ->
  L * 2 ^ (el - ex) <= mx ->
  binary_round_aux prec emax false mx ex loc_Exact = S754_infinity false \/
  exists m e,
    binary_round_aux prec emax false mx ex loc_Exact = S754_finite false m e /\
    (el < e \/ (e = el /\ L <= Zpos m)).
Proof.
  intros Hmx Hex Hel HL Hge.
  unfold binary_round_aux, shr_fexp.
  assert (Hpow : forall k, 0 <= k -> 0 < 2 ^ k) by (intros; apply Z.pow_pos_nonneg; lia).
  change (2 ^ 52) with 4503599627370496 in HL.
  (* the mantissa has at least 53 + (el - ex) digits *)
  destruct mx as [| p | p]; try lia.
  set (d := Zpos (digits2_pos p)).
  destruct (digits2_pos_bounds p) as [Hdlo Hdhi]. fold d in Hdlo, Hdhi.
  assert (Hd : 53 + (el - ex) <= d).
  { assert (52 + (el - ex) + 1 <= d); [| lia].
    apply Zdigits2_ge; [lia |]. rewrite pow2_split by lia.
    change (2 ^ 52) with 4503599627370496. specialize (Hpow (el - ex)). nia. }
  cbn [Zdigits2]. fold d.
  assert (He1 : fexp prec emax (d + ex) = d + ex - 53)
    by (unfold fexp, SpecFloat.emin, prec, emax; lia).
  rewrite He1.
  destruct (shr_spec (shr_record_of_loc (Zpos p) loc_Exact) ex (d + ex - 53 - ex))
    as (mrs1 & Hs1 & Hm1 & _); [cbn; lia |].
  rewrite Hs1. cbn [shr_record_of_loc shr_m] in Hm1.
  replace (Z.max (d + ex - 53 - ex) 0) with (d - 53) in * by lia.
  replace (ex + (d - 53)) with (d + ex - 53) by lia.
  (* the shifted mantissa has exactly 53 digits *)
  assert (Hdsplit : 2 ^ (d - 1) = 4503599627370496 * 2 ^ (d - 53)).
  { change 4503599627370496 with (2 ^ 52). rewrite <- pow2_split by lia. f_equal. lia. }
  assert (Hdsplit' : 2 ^ d = 9007199254740992 * 2 ^ (d - 53)).
  { change 9007199254740992 with (2 ^ 53). rewrite <- pow2_split by lia. f_equal. lia. }
  assert (Hm1lo : 4503599627370496 <= shr_m mrs1).
  { rewrite Hm1. apply Z.div_le_lower_bound; [apply Hpow; lia |]. lia. }
  assert (Hm1hi : shr_m mrs1 < 9007199254740992).
  { rewrite Hm1. apply Z.div_lt_upper_bound; [apply Hpow; lia |]. lia. }
  assert (Hm1L : d + ex - 53 = el -> L <= shr_m mrs1).
  { intros Heq. rewrite Hm1. apply Z.div_le_lower_bound; [apply Hpow; lia |].
    replace (d - 53) with (el - ex) by lia. lia. }
  pose proof (round_nearest_even_bounds (shr_m mrs1) (loc_of_shr_record mrs1)) as Hr.
  set (mr := round_nearest_even (shr_m mrs1) (loc_of_shr_record mrs1)) in *.
  destruct (Z_lt_le_dec mr 9007199254740992) as [Hin | Hout].
  - (* no carry: the rounded mantissa still has 53 digits *)
    assert (Hd2 : Zdigits2 mr = 53).
    { apply (Zdigits2_pos_eq mr 52); [lia |].
      change (2 ^ 52) with 4503599627370496.
      change (2 ^ (52 + 1)) with 9007199254740992. lia. }
    rewrite Hd2.
    replace (fexp prec emax (53 + (d + ex - 53))) with (d + ex - 53)
      by (unfold fexp, SpecFloat.emin, prec, emax; lia).
    replace (d + ex - 53 - (d + ex - 53)) with 0 by lia.
    cbn [shr shr_record_of_loc shr_m].
    destruct mr as [| q | q] eqn:Hq; try lia.
    destruct (d + ex - 53 <=? emax - prec); [right | left; reflexivity].
    exists q, (d + ex - 53). split; [reflexivity |].
    destruct (Z_lt_le_dec el (d + ex - 53)) as [Hlt | Hle]; [left; exact Hlt | right].
    assert (Heq : d + ex - 53 = el) by lia.
    split; [exact Heq |]. specialize (Hm1L Heq). lia.
  - (* carry: the rounded mantissa is 2^53 and is shifted once more *)
    assert (Hmr : mr = 9007199254740992) by lia.
    rewrite Hmr.
    change (Zdigits2 9007199254740992) with 54.
    replace (fexp prec emax (54 + (d + ex - 53))) with (d + ex - 53 + 1)
      by (unfold fexp, SpecFloat.emin, prec, emax; lia).
    replace (d + ex - 53 + 1 - (d + ex - 53)) with 1 by lia.
    cbn [shr shr_record_of_loc shr_m iter_pos shr_1 Z.add].
    destruct (d + ex - 53 + 1 <=? emax - prec); [right | left; reflexivity].
    eexists. eexists. split; [reflexivity |]. left. lia.
Qed.

Lemma Pos_iter_xO (m d : positive) :
  Zpos (Pos.iter xO m d) = Zpos m * 2 ^ Zpos d.
Proof.
  induction d as [| d IH] using Pos.peano_ind.
  - cbn. lia.
  - rewrite Pos.iter_succ, Pos2Z.inj_xO, IH, Pos2Z.inj_succ, Z.pow_succ_r by lia. lia.
Qed.

Lemma shl_align_spec (m : positive) (e e' : Z) :
  snd (shl_align m e e') = Z.min e e' /\
  Zpos (fst (shl_align m e e')) = Zpos m * 2 ^ (e - Z.min e e').
Proof.
  unfold shl_align.
  destruct (e' - e) as [| d | d] eqn:Hd; cbn [fst snd].
  - replace (Z.min e e') with e by lia. rewrite Z.sub_diag. cbn. lia.
  - replace (Z.min e e') with e by lia. rewrite Z.sub_diag. cbn. lia.
  - replace (Z.min e e') with e' by lia. rewrite Pos_iter_xO.
    replace (e - e') with (Zpos d) by lia. split; reflexivity.
Qed.

Lemma Zdigits2_shift (m : positive) (k : Z) :
  0 <= k -> Zdigits2 (Zpos m * 2 ^ k) = Zpos (digits2_pos m) + k.
Proof.
  intros Hk. destruct (digits2_pos_bounds m) as [Hlo Hhi].
  assert (0 < 2 ^ k) by (apply Z.pow_pos_nonneg; lia).
  replace (Zpos (digits2_pos m) + k) with (Zpos (digits2_pos m) - 1 + k + 1) by lia.
  apply Zdigits2_pos_eq; [lia |].
  replace (Zpos (digits2_pos m) - 1 + k + 1) with (Zpos (digits2_pos m) + k) by lia.
  rewrite !pow2_split by lia. nia.
Qed.

(** [binary_round] first aligns the mantissa on the canonical exponent,
    then rounds: its result lies between representable bounds of the
    exact value. *)
Lemma binary_round_bounds (m : positive) (e L el U eu : Z) :
  e <= el -> e <= eu -> -1074 <= el -> -1074 <= eu <= 971 ->
  2 ^ 52 <= L -> 0 < U < 2 ^ 53 ->
  L * 2 ^ (el - e) <= Zpos m <= U * 2 ^ (eu - e) ->
  exists m' e',
    binary_round prec emax false m e = S754_finite false m' e' /\
    (el < e' \/ (e' = el /\ L <= Zpos m')) /\
    (e' < eu \/ (e' = eu /\ Zpos m' <= U)).
Proof.
  intros Hel Heu Hell Heuu HL HU [Hlo Hhi].
  unfold binary_round.
  destruct (shl_align_spec m e (fexp prec emax (Zpos (digits2_pos m) + e)))
    as [Hez Hmz].
  destruct (shl_align m e (fexp prec emax (Zpos (digits2_pos m) + e))) as [mz ez].
  cbn [fst snd] in Hez, Hmz.
  set (t := fexp prec emax (Zpos (digits2_pos m) + e)) in *.
  rewrite <- Hez in Hmz.
  assert (Hpow : forall k, 0 <= k -> 0 < 2 ^ k) by (intros; apply Z.pow_pos_nonneg; lia).
  assert (Hshift : 0 <= e - ez) by lia.
  assert (Hcan : ez <= fexp prec emax (Zdigits2 (Zpos mz) + ez)).
  { rewrite Hmz, Zdigits2_shift by lia.
    replace (Zpos (digits2_pos m) + (e - ez) + ez) with (Zpos (digits2_pos m) + e) by lia.
    fold t. lia. }
  assert (Hlo' : L * 2 ^ (el - ez) <= Zpos mz).
  { rewrite Hmz. replace (el - ez) with (el - e + (e - ez)) by lia.
    rewrite pow2_split by lia. specialize (Hpow (e - ez)). nia. }
  assert (Hhi' : Zpos mz <= U * 2 ^ (eu - ez)).
  { rewrite Hmz. replace (eu - ez) with (eu - e + (e - ez)) by lia.
    rewrite pow2_split by lia. specialize (Hpow (e - ez)). nia. }
  destruct (round_aux_upper (Zpos mz) ez U eu) as [Hz | (m1 & e1 & Hr1 & Hb1)];
    try lia; try assumption;
    destruct (round_aux_lower (Zpos mz) ez L el) as [Hi | (m2 & e2 & Hr2 & Hb2)];
    try lia; try assumption; try congruence.
  rewrite Hr1 in Hr2. injection Hr2 as <- <-.
  exists m1, e1. auto.
Qed.

(** The sum of a positive binary64 number [ma * 2^ea] and a non-negative
    one of no larger exponent lies between [L * 2^ea], for a mantissa
    [L <= ma], and any representable upper bound of the exact sum. *)
Lemma SFadd_bounds (ma : positive) (ea : Z) (x : spec_float) (L U eu : Z) :
  -1074 <= ea -> -1074 <= eu <= 971 -> ea <= eu ->
  2 ^ 52 <= L -> 0 < U < 2 ^ 53 ->
  L <= Zpos ma ->
  Zpos ma <= U * 2 ^ (eu - ea) ->
  (x = S754_zero false \/ x = S754_zero true \/
   exists mx ex,
     x = S754_finite false mx ex /\ ex <= ea /\
     Zpos ma * 2 ^ (ea - ex) + Zpos mx <= U * 2 ^ (eu - ex)) ->
  exists m' e',
    SF64add (S754_finite false ma ea) x = S754_finite false m' e' /\
    (ea < e' \/ (e' = ea /\ L <= Zpos m')) /\
    (e' < eu \/ (e' = eu /\ Zpos m' <= U)).
Proof.
  intros Hea Heu Heau HL HU Hlo Hhi Hx.
  assert (Hpow : forall k, 0 <= k -> 0 < 2 ^ k) by (intros; apply Z.pow_pos_nonneg; lia).
  assert (Hself : exists m' e',
             S754_finite false ma ea = S754_finite false m' e' /\
             (ea < e' \/ (e' = ea /\ L <= Zpos m')) /\
             (e' < eu \/ (e' = eu /\ Zpos m' <= U))).
  { exists ma, ea. split; [reflexivity |].
    split; [right; split; [reflexivity | exact Hlo] |].
    destruct (Z_lt_le_dec ea eu); [left; assumption | right].
    assert (ea = eu) by lia. subst eu. rewrite Z.sub_diag, Z.pow_0_r in Hhi. lia. }
  destruct Hx as [-> | [-> | (mx & ex & -> & Hex & Hsum)]];
    [exact Hself | exact Hself |].
  unfold SF64add, SFadd. cbn [cond_Zopp].
  replace (Z.min ea ex) with ex by lia.
  destruct (shl_align_spec ma ea ex) as [_ Ha].
  destruct (shl_align_spec mx ex ex) as [_ Hxx].
  replace (Z.min ea ex) with ex in Ha by lia.
  rewrite Z.min_id, Z.sub_diag, Z.pow_0_r, Z.mul_1_r in Hxx.
  set (A := fst (shl_align ma ea ex)) in *.
  set (X := fst (shl_align mx ex ex)) in *.
  change (Zpos A + Zpos X) with (Zpos (A + X)).
  cbn [binary_normalize].
  apply binary_round_bounds; try lia.
  rewrite Pos2Z.inj_add, Ha, Hxx. split; [| exact Hsum].
  specialize (Hpow (ea - ex)). nia.
Qed.

Lemma SFleb_finite_le (m1 m2 : positive) (e1 e2 : Z) :
  e1 < e2 \/ (e1 = e2 /\ Zpos m1 <= Zpos m2) ->
  SFleb (S754_finite false m1 e1) (S754_finite false m2 e2) = true.
Proof.
  intros Hle. unfold SFleb, SFcompare.
  destruct (Z.compare_spec e1 e2) as [Heq | Hlt | Hgt]; [| reflexivity | lia].
  destruct Hle as [Hlt | [_ Hm]]; [lia |].
  fold (Pos.compare m1 m2). destruct (Pos.compare_spec m1 m2); try reflexivity. lia.
Qed.

Lemma SFleb_finite_gt (m1 m2 : positive) (e1 e2 : Z) :
  e2 < e1 \/ (e2 = e1 /\ Zpos m2 < Zpos m1) ->
  SFleb (S754_finite false m1 e1) (S754_finite false m2 e2) = false.
Proof.
  intros Hgt. unfold SFleb, SFcompare.
  destruct (Z.compare_spec e1 e2) as [Heq | Hlt | Hgt']; [| lia | reflexivity].
  destruct Hgt as [Hlt | [_ Hm]]; [lia |].
  fold (Pos.compare m1 m2). destruct (Pos.compare_spec m1 m2); try reflexivity; lia.
Qed.

(** The scaled confidence as the specification of binary64 sees it: a
    zero, or a positive number of value at most thirty. *)
Lemma scaled_confidence_shape (f : float) :
  PrimFloat.leb 0 f = true -> PrimFloat.leb f 1 = true ->
  Prim2SF (f * float_of_Z 30) = S754_zero false \/
  Prim2SF (f * float_of_Z 30) = S754_zero true \/
  exists m e,
    Prim2SF (f * float_of_Z 30) = S754_finite false m e /\ e <= -48 /\
    Zpos m <= 8444249301319680 * 2 ^ (-48 - e).
Proof.
  intros H0 H1.
  pose proof (Prim2SF_valid (f * float_of_Z 30)) as Hvx.
  rewrite mul_spec in *.
  rewrite leb_spec in H0, H1.
  pose proof (Prim2SF_valid f) as Hvalid.
  replace (Prim2SF 0) with (S754_zero false) in H0 by (vm_compute; reflexivity).
  destruct (Prim2SF f) as [sg | sg | | sg m e] eqn:Hf.
  - replace (Prim2SF (float_of_Z 30)) with (S754_finite false 8444249301319680 (-48))
      by (vm_compute; reflexivity).
    destruct sg; cbn; auto.
  - replace (Prim2SF 1) with (S754_finite false 4503599627370496 (-52)) in H1
      by (vm_compute; reflexivity).
    destruct sg; cbn in H0, H1; discriminate.
  - cbn in H0. discriminate.
  - destruct sg; [cbn in H0; discriminate |].
    destruct (SFmul_unit_30 m e Hvalid H1) as [Hz | (m' & e' & Hm & Hb)].
    + left. exact Hz.
    + right. right. exists m', e'. split; [exact Hm |].
      rewrite Hm in Hvx. cbn [valid_binary] in Hvx.
      unfold bounded, canonical_mantissa in Hvx.
      apply andb_prop in Hvx. destruct Hvx as [Hcanon _].
      apply Z.eqb_eq in Hcanon. unfold fexp, SpecFloat.emin, prec, emax in Hcanon.
      destruct (digits2_pos_bounds m') as [_ Hdhi].
      destruct Hb as [Hlt | [-> Hle]].
      * split; [lia |].
        assert (Hd : Zpos (digits2_pos m') <= 53) by lia.
        assert (2 ^ Zpos (digits2_pos m') <= 2 ^ 53) by (apply Z.pow_le_mono_r; lia).
        change (2 ^ 53) with 9007199254740992 in *.
        assert (2 ^ 1 <= 2 ^ (-48 - e')) by (apply Z.pow_le_mono_r; lia).
        change (2 ^ 1) with 2 in *. lia.
      * split; [lia |]. change (-48 - -48) with 0. rewrite Z.pow_0_r.
        change (30 * 2 ^ 48) with 8444249301319680 in Hle. lia.
Qed.

(** The classifier's sums [30 + x] and [50 + x] for a confidence in
    [[0, 1]]: between 30 and 60, and between 50 and 80, after rounding. *)
Lemma float_base_plus_scaled (f : float) :
  PrimFloat.leb 0 f = true -> PrimFloat.leb f 1 = true ->
  (PrimFloat.leb (float_of_Z 30) (float_of_Z 30 + f * float_of_Z 30) = true /\
   PrimFloat.leb (float_of_Z 30 + f * float_of_Z 30) (float_of_Z 60) = true /\
   PrimFloat.leb (float_of_Z 80) (float_of_Z 30 + f * float_of_Z 30) = false) /\
  (PrimFloat.leb (float_of_Z 50) (float_of_Z 50 + f * float_of_Z 30) = true /\
   PrimFloat.leb (float_of_Z 50 + f * float_of_Z 30) (float_of_Z 80) = true /\
   PrimFloat.leb (float_of_Z 40) (float_of_Z 50 + f * float_of_Z 30) = true).
Proof.
  intros H0 H1.
  pose proof (scaled_confidence_shape f H0 H1) as Hx.
  assert (Hpow : forall k, 0 <= k -> 0 < 2 ^ k) by (intros; apply Z.pow_pos_nonneg; lia).
  rewrite !leb_spec, !add_spec.
  replace (Prim2SF (float_of_Z 30)) with (S754_finite false 8444249301319680 (-48))
    by (vm_compute; reflexivity).
  replace (Prim2SF (float_of_Z 40)) with (S754_finite false 5629499534213120 (-47))
    by (vm_compute; reflexivity).
  replace (Prim2SF (float_of_Z 50)) with (S754_finite false 7036874417766400 (-47))
    by (vm_compute; reflexivity).
  replace (Prim2SF (float_of_Z 60)) with (S754_finite false 8444249301319680 (-47))
    by (vm_compute; reflexivity).
  replace (Prim2SF (float_of_Z 80)) with (S754_finite false 5629499534213120 (-46))
    by (vm_compute; reflexivity).
  set (x := Prim2SF (f * float_of_Z 30)) in *.
  split.
  - destruct (SFadd_bounds 8444249301319680 (-48) x
                8444249301319680 8444249301319680 (-47))
      as (m' & e' & Hsum & Hlo & Hhi); try lia.
    { destruct Hx as [Hx | [Hx | (m & e & Hx & He & Hm)]]; auto.
      right. right. exists m, e. split; [exact Hx |]. split; [lia |].
      replace (-47 - e) with (1 + (-48 - e)) by lia.
      rewrite pow2_split by lia. change (2 ^ 1) with 2.
      specialize (Hpow (-48 - e) ltac:(lia)). lia. }
    rewrite Hsum. split; [| split].
    + apply SFleb_finite_le. lia.
    + apply SFleb_finite_le. lia.
    + apply SFleb_finite_gt. lia.
  - destruct (SFadd_bounds 7036874417766400 (-47) x
                7036874417766400 5629499534213120 (-46))
      as (m' & e' & Hsum & Hlo & Hhi); try lia.
    { destruct Hx as [Hx | [Hx | (m & e & Hx & He & Hm)]]; auto.
      right. right. exists m, e. split; [exact Hx |]. split; [lia |].
      replace (-47 - e) with (1 + (-48 - e)) by lia.
      replace (-46 - e) with (2 + (-48 - e)) by lia.
      rewrite !pow2_split by lia. change (2 ^ 1) with 2. change (2 ^ 2) with 4.
      specialize (Hpow (-48 - e) ltac:(lia)). lia. }
    rewrite Hsum. split; [| split].
    + apply SFleb_finite_le. lia.
    + apply SFleb_finite_le. lia.
    + apply SFleb_finite_le. lia.
Qed.

(** X7.  For a suspicious reputation and a confidence in [[0, 1]] the
    score lies between 30 and 60 (after rounding), so the severity is LOW,
    MEDIUM or HIGH, never CRITICAL. *)
Theorem triage_suspicious_range (event : json) (context : lambda_context)
    (w : world) (enr : list (string * json)) (c : number) :
  py_get event "enrichment" (JObj []) = Ok (JObj enr) ->
  reputation_of enr = JStr "suspicious" ->
  confidence_of enr = Some c ->
  in_unit_interval c = true ->
  exists v s,
    fst (Triage.lambda_handler event context w) = Ok v /\
    Triage.score v = json_of_number s /\
    number_geb s 30 = true /\ number_leb s 60 = true /\
    In (Triage.severity v) ["LOW"; "MEDIUM"; "HIGH"].
Proof.
  intros Henr Hrep Hconf Hunit.
  rewrite (triage_eval event context w enr c Henr Hconf). cbn [fst].
  eexists. exists (spec_score (reputation_of enr) c).
  split; [reflexivity |]. cbn [Triage.score Triage.severity].
  split; [reflexivity |].
  assert (Hs : number_geb (spec_score (reputation_of enr) c) 30 = true /\
               number_leb (spec_score (reputation_of enr) c) 60 = true /\
               number_geb (spec_score (reputation_of enr) c) 80 = false).
  { rewrite Hrep. unfold spec_score, spec_reputation_points.
    cbn [py_eq_str String.eqb Ascii.eqb Bool.eqb]. change (0 + 30) with 30.
    destruct c as [z | f]; cbn [in_unit_interval number_leb number_geb] in *;
      apply andb_prop in Hunit; destruct Hunit as [Hlo Hhi].
    - apply Z.leb_le in Hlo, Hhi.
      repeat split; [apply Z.leb_le | apply Z.leb_le | apply Z.leb_gt]; lia.
    - apply (float_base_plus_scaled f Hlo Hhi). }
  destruct Hs as (H30 & H60 & H80).
  split; [exact H30 | split; [exact H60 |]].
  unfold spec_severity. rewrite H80.
  destruct (number_geb (spec_score (reputation_of enr) c) 60);
    [| destruct (number_geb (spec_score (reputation_of enr) c) 40)];
    cbn [In]; tauto.
Qed.

Lemma triage_suspicious_range_witness :
  exists v s,
    fst (Triage.lambda_handler
           (JObj [("enrichment", JObj [("reputation", JStr "suspicious");
                                       ("confidence", JFloat 1)])])
           (mkContext "req-1") (mkWorld [] "2025-10-18T12:00:00")) = Ok v /\
    Triage.score v = json_of_number s /\
    number_geb s 30 = true /\ number_leb s 60 = true /\
    In (Triage.severity v) ["LOW"; "MEDIUM"; "HIGH"].
Proof.
  apply (triage_suspicious_range
           (JObj [("enrichment", JObj [("reputation", JStr "suspicious");
                                       ("confidence", JFloat 1)])])
           (mkContext "req-1") (mkWorld [] "2025-10-18T12:00:00")
           [("reputation", JStr "suspicious"); ("confidence", JFloat 1)]
           (NFloat 1));
    reflexivity.
Defined.

(** X8.  For a malicious reputation and a confidence in [[0, 1]] the
    score lies between 50 and 80 (after rounding), so the severity is
    MEDIUM, HIGH or CRITICAL, never LOW. *)
Theorem triage_malicious_range (event : json) (context : lambda_context)
    (w : world) (enr : list (string * json)) (c : number) :
  py_get event "enrichment" (JObj []) = Ok (JObj enr) ->
  reputation_of enr = JStr "malicious" ->
  confidence_of enr = Some c ->
  in_unit_interval c = true ->
  exists v s,
    fst (Triage.lambda_handler event context w) = Ok v /\
    Triage.score v = json_of_number s /\
    number_geb s 50 = true /\ number_leb s 80 = true /\
    In (Triage.severity v) ["MEDIUM"; "HIGH"; "CRITICAL"].
Proof.
  intros Henr Hrep Hconf Hunit.
  rewrite (triage_eval event context w enr c Henr Hconf). cbn [fst].
  eexists. exists (spec_score (reputation_of enr) c).
  split; [reflexivity |]. cbn [Triage.score Triage.severity].
  split; [reflexivity |].
  assert (Hs : number_geb (spec_score (reputation_of enr) c) 50 = true /\
               number_leb (spec_score (reputation_of enr) c) 80 = true /\
               number_geb (spec_score (reputation_of enr) c) 40 = true).
  { rewrite Hrep. unfold spec_score, spec_reputation_points.
    cbn [py_eq_str String.eqb Ascii.eqb Bool.eqb]. change (0 + 50) with 50.
    destruct c as [z | f]; cbn [in_unit_interval number_leb number_geb] in *;
      apply andb_prop in Hunit; destruct Hunit as [Hlo Hhi].
    - apply Z.leb_le in Hlo, Hhi. repeat split; apply Z.leb_le; lia.
    - apply (float_base_plus_scaled f Hlo Hhi). }
  destruct Hs as (H50 & H80 & H40).
  split; [exact H50 | split; [exact H80 |]].
  unfold spec_severity. rewrite H40.
  destruct (number_geb (spec_score (reputation_of enr) c) 80);
    [| destruct (number_geb (spec_score (reputation_of enr) c) 60)];
    cbn [In]; tauto.
Qed.

Lemma triage_malicious_range_witness :
  exists v s,
    fst (Triage.lambda_handler
           (JObj [("enrichment", JObj [("reputation", JStr "malicious");
                                       ("confidence", JFloat 0)])])
           (mkContext "req-1") (mkWorld [] "2025-10-18T12:00:00")) = Ok v /\
    Triage.score v = json_of_number s /\
    number_geb s 50 = true /\ number_leb s 80 = true /\
    In (Triage.severity v) ["MEDIUM"; "HIGH"; "CRITICAL"].
Proof.
  apply (triage_malicious_range
           (JObj [("enrichment", JObj [("reputation", JStr "malicious");
                                       ("confidence", JFloat 0)])])
           (mkContext "req-1") (mkWorld [] "2025-10-18T12:00:00")
           [("reputation", JStr "malicious"); ("confidence", JFloat 0)]
           (NFloat 0));
    reflexivity.
Defined.

(** ** The enrichment handler: every outcome *)

(** What the two dict lookups of the handler return for hashable keys. *)
Lemma threat_data_lookup (indicator_type indicator : json) :
  py_hashable indicator_type = true ->
  py_hashable indicator = true ->
  exists lookup_dict,
    py_get_key Enrichment.threat_data indicator_type (JObj []) = Ok lookup_dict /\
    exists reputation confidence category,
    py_get_key lookup_dict indicator Enrichment.unknown_reputation =
      Ok (JObj [("reputation", JStr reputation);
                ("confidence", JFloat confidence);
                ("category", JStr category)]) /\
    (reputation = "unknown" <-> listed indicator_type indicator = false) /\
    In reputation ["unknown"; "suspicious"; "malicious"] /\
    PrimFloat.leb 0 confidence && PrimFloat.leb confidence 1 = true.
Proof.
  intros Hty Hind.
  assert (Hdefault : forall d : list (string * json),
             (forall i, indicator = JStr i -> assoc i d = None) ->
             py_get_key (JObj d) indicator Enrichment.unknown_reputation =
               Ok Enrichment.unknown_reputation).
  { intros d Hd. destruct indicator as [| | | | i | |]; try discriminate Hind;
      try reflexivity.
    cbn [py_get_key]. rewrite (Hd i eq_refl). reflexivity. }
  unfold listed, known_indicators. cbn [existsb].
  destruct indicator_type as [| | | | t | |]; try discriminate Hty;
    try (exists (JObj []); cbn [py_eq_str andb orb];
         split; [reflexivity |];
         exists "unknown", 0%float, "unknown";
         split; [apply Hdefault; reflexivity |];
         split; [split; reflexivity |];
         split; [left; reflexivity | reflexivity]).
  unfold Enrichment.threat_data. cbn [py_get_key assoc py_eq_str].
  destruct (String.eqb_spec t "ip") as [-> | Hip];
    [| destruct (String.eqb_spec t "domain") as [-> | Hdomain];
       [| destruct (String.eqb_spec t "hash") as [-> | Hhash]]];
    cbn [String.eqb Ascii.eqb Bool.eqb andb orb];
    (eexists; split; [reflexivity |]);
    (destruct indicator as [| | | | i | |]; try discriminate Hind;
     cbn [py_get_key assoc py_eq_str andb orb]);
    repeat match goal with
           | |- context [String.eqb ?x ?k] =>
               is_var x; destruct (String.eqb_spec x k) as [-> | ?];
               cbn [String.eqb Ascii.eqb Bool.eqb andb orb]
           end;
    do 3 eexists;
    (split; [reflexivity |]);
    first [ split; [split; reflexivity |];
            split; [left; reflexivity | reflexivity]
          | split; [split; discriminate |];
            split; [cbn; tauto | vm_compute; reflexivity] ].
Qed.

(** X9.  An event without an indicator, or with an empty one (an empty
    string, [None], zero, an empty list or dict), is answered with status
    400 and the error "No indicator provided", whatever its type entry
    holds; the only line printed is the invocation line. *)
Theorem enrichment_missing_indicator `{R : PyRepr} (event : json)
    (context : lambda_context) (w : world) (indicator : json) :
  py_get event "indicator" (JStr "") = Ok indicator ->
  py_truthy indicator = false ->
  Enrichment.lambda_handler event context w =
    (Ok (mkResponse 400 (json_dumps (JObj [("error", JStr "No indicator provided")]))),
     mkWorld
       (stdout w ++ ["Enrichment Lambda invoked with event: " ++ py_str event])
       (clock w)).
Proof.
  intros Hind Hfalsy.
  destruct event as [| | | | | | m]; try discriminate Hind.
  unfold Enrichment.lambda_handler, bind, print, lift, ret.
  rewrite Hind. cbn [py_get]. rewrite Hfalsy. reflexivity.
Qed.

Lemma enrichment_missing_indicator_witness :
  Enrichment.lambda_handler (R := sample_repr)
    (JObj [("type", JArr [])]) (mkContext "req-1")
    (mkWorld [] "2025-10-18T12:00:00") =
    (Ok (mkResponse 400 (json_dumps (JObj [("error", JStr "No indicator provided")]))),
     mkWorld
       (stdout (mkWorld [] "2025-10-18T12:00:00") ++
        ["Enrichment Lambda invoked with event: " ++
         py_str (R := sample_repr) (JObj [("type", JArr [])])])
       (clock (mkWorld [] "2025-10-18T12:00:00"))).
Proof.
  apply (enrichment_missing_indicator (R := sample_repr)
           (JObj [("type", JArr [])]) (mkContext "req-1")
           (mkWorld [] "2025-10-18T12:00:00") (JStr ""));
    reflexivity.
Defined.

(** X10.  Every lookup with a non-empty hashable indicator and a hashable
    type is answered with status 200 and a six-field record that echoes
    the indicator and the type; its reputation is "unknown", "suspicious"
    or "malicious", and "unknown" exactly when the table does not list
    the pair; its confidence is a float in [[0, 1]]. *)
Theorem enrichment_answer_shape `{R : PyRepr} (event : json)
    (context : lambda_context) (w : world) (indicator indicator_type : json) :
  py_get event "indicator" (JStr "") = Ok indicator ->
  py_get event "type" (JStr "ip") = Ok indicator_type ->
  py_truthy indicator = true ->
  py_hashable indicator = true ->
  py_hashable indicator_type = true ->
  exists reputation confidence category,
    fst (Enrichment.lambda_handler event context w) =
      Ok (mkResponse 200
            (json_dumps
               (JObj [("indicator", indicator);
                      ("type", indicator_type);
                      ("reputation", JStr reputation);
                      ("confidence", JFloat confidence);
                      ("category", JStr category);
                      ("sources", JArr [JStr "Mock Threat Intel DB"])]))) /\
    (reputation = "unknown" <-> listed indicator_type indicator = false) /\
    In reputation ["unknown"; "suspicious"; "malicious"] /\
    PrimFloat.leb 0 confidence && PrimFloat.leb confidence 1 = true.
Proof.
  intros Hind Hty Htruthy Hhash Hhashty.
  destruct (threat_data_lookup indicator_type indicator Hhashty Hhash)
    as (lookup_dict & Hdict & reputation & confidence & category & Hdata & Hrest).
  exists reputation, confidence, category. split; [| exact Hrest].
  unfold Enrichment.lambda_handler, bind, print, lift, ret.
  rewrite Hind, Hty, Htruthy. cbn [negb].
  rewrite Hdict, Hdata. reflexivity.
Qed.

Lemma enrichment_answer_shape_witness :
  exists reputation confidence category,
    fst (Enrichment.lambda_handler (R := sample_repr)
           (JObj [("indicator", JStr "malicious-site.com"); ("type", JStr "domain")])
           (mkContext "req-1") (mkWorld [] "2025-10-18T12:00:00")) =
      Ok (mkResponse 200
            (json_dumps
               (JObj [("indicator", JStr "malicious-site.com");
                      ("type", JStr "domain");
                      ("reputation", JStr reputation);
                      ("confidence", JFloat confidence);
                      ("category", JStr category);
                      ("sources", JArr [JStr "Mock Threat Intel DB"])]))) /\
    (reputation = "unknown" <->
     listed (JStr "domain") (JStr "malicious-site.com") = false) /\
    In reputation ["unknown"; "suspicious"; "malicious"] /\
    PrimFloat.leb 0 confidence && PrimFloat.leb confidence 1 = true.
Proof.
  apply (enrichment_answer_shape (R := sample_repr)
           (JObj [("indicator", JStr "malicious-site.com"); ("type", JStr "domain")])
           (mkContext "req-1") (mkWorld [] "2025-10-18T12:00:00")
           (JStr "malicious-site.com") (JStr "domain"));
    reflexivity.
Defined.

(** X11.  An event without a [type] entry is looked up as an IP address:
    it is answered as the same event with ["type": "ip"] added. *)
Theorem enrichment_type_defaults_to_ip `{R : PyRepr} (m : list (string * json))
    (context : lambda_context) (w : world) :
  assoc "type" m = None ->
  fst (Enrichment.lambda_handler (JObj m) context w) =
    fst (Enrichment.lambda_handler (JObj (("type", JStr "ip") :: m)) context w).
Proof.
  intros Hnone.
  unfold Enrichment.lambda_handler, bind, print, lift, ret.
  cbn [py_get assoc String.eqb Ascii.eqb Bool.eqb]. rewrite Hnone.
  destruct (negb (py_truthy
                    (match assoc "indicator" m with
                     | Some v => v
                     | None => JStr ""
                     end))); [reflexivity |].
  destruct (py_get_key Enrichment.threat_data (JStr "ip") (JObj [])) as [d | e];
    [| reflexivity].
  destruct (py_get_key d _ Enrichment.unknown_reputation) as [data | e];
    [| reflexivity].
  destruct (py_subscript data "reputation"); [| reflexivity].
  destruct (py_subscript data "confidence"); [| reflexivity].
  destruct (py_subscript data "category"); reflexivity.
Qed.

Lemma enrichment_type_defaults_to_ip_witness :
  fst (Enrichment.lambda_handler (R := sample_repr)
         (JObj [("indicator", JStr "10.0.0.50")]) (mkContext "req-1")
         (mkWorld [] "2025-10-18T12:00:00")) =
  fst (Enrichment.lambda_handler (R := sample_repr)
         (JObj [("type", JStr "ip"); ("indicator", JStr "10.0.0.50")])
         (mkContext "req-1") (mkWorld [] "2025-10-18T12:00:00")).
Proof.
  apply (enrichment_type_defaults_to_ip (R := sample_repr)
           [("indicator", JStr "10.0.0.50")]).
  reflexivity.
Defined.

(** X12.  The handler raises in two situations only: [AttributeError] on
    an event that is not a dict, and [TypeError] on a non-empty indicator
    when the type or the indicator is a list or a dict (unhashable as a
    key of the table). *)
Theorem enrichment_raises_iff `{R : PyRepr} (event : json)
    (context : lambda_context) (w : world) (e : exn) :
  fst (Enrichment.lambda_handler event context w) = Raise e <->
  (e = AttributeError /\ py_get event "indicator" (JStr "") = Raise AttributeError) \/
  (e = TypeError /\
   exists indicator indicator_type,
     py_get event "indicator" (JStr "") = Ok indicator /\
     py_get event "type" (JStr "ip") = Ok indicator_type /\
     py_truthy indicator = true /\
     (py_hashable indicator_type = false \/ py_hashable indicator = false)).
Proof.
  destruct event as [| | | | | | m];
    try (cbn; split;
         [ intros [= <-]; left; auto
         | intros [[-> _] | [_ (i & t & Hi & _)]]; [reflexivity | discriminate Hi] ]).
  unfold Enrichment.lambda_handler, bind, print, lift, ret. cbn [py_get].
  set (indicator := match assoc "indicator" m with Some v => v | None => JStr "" end).
  set (indicator_type := match assoc "type" m with Some v => v | None => JStr "ip" end).
  destruct (py_truthy indicator) eqn:Htruthy; cbn [negb fst].
  - destruct (py_hashable indicator_type) eqn:Hty.
    + destruct (py_hashable indicator) eqn:Hind.
      * destruct (threat_data_lookup indicator_type indicator Hty Hind)
          as (d & Hd & r & c & k & Hdata & _).
        rewrite Hd, Hdata. cbn. split; [discriminate |].
        intros [[_ Habs] | [_ (i & t & [= <-] & [= <-] & _ & [Hc | Hc])]];
          congruence.
      * assert (Hd : exists d, py_get_key Enrichment.threat_data indicator_type (JObj [])
                               = Ok (JObj d)).
        { unfold Enrichment.threat_data.
          destruct indicator_type as [| | | | t | |]; try discriminate Hty;
            cbn [py_get_key]; eauto.
          cbn [assoc].
          repeat match goal with
                 | |- context [String.eqb t ?k] => destruct (String.eqb t k)
                 end; eauto. }
        destruct Hd as [d ->].
        replace (py_get_key (JObj d) indicator Enrichment.unknown_reputation)
          with (@Raise json TypeError)
          by (destruct indicator; try discriminate Hind; reflexivity).
        cbn [fst]. split.
        -- intros [= <-]. right. split; [reflexivity |].
           exists indicator, indicator_type. auto.
        -- intros [[_ Habs] | [-> _]]; [discriminate Habs | reflexivity].
    + replace (py_get_key Enrichment.threat_data indicator_type (JObj []))
        with (@Raise json TypeError)
        by (destruct indicator_type; try discriminate Hty; reflexivity).
      cbn [fst]. split.
      * intros [= <-]. right. split; [reflexivity |].
        exists indicator, indicator_type. auto.
      * intros [[_ Habs] | [-> _]]; [discriminate Habs | reflexivity].
  - split; [discriminate |].
    intros [[_ Habs] | [_ (i & t & [= <-] & _ & Ht & _)]]; congruence.
Qed.

(** ** From enrichment to classification *)

Lemma threat_data_record (indicator_type indicator : json) :
  py_hashable indicator_type = true ->
  py_hashable indicator = true ->
  exists lookup_dict,
    py_get_key Enrichment.threat_data indicator_type (JObj []) = Ok lookup_dict /\
    exists data,
      py_get_key lookup_dict indicator Enrichment.unknown_reputation = Ok data /\
      In data lookup_records.
Proof.
  intros Hty Hind.
  destruct (threat_data_lookup indicator_type indicator Hty Hind)
    as (d & Hd & r & c & k & Hdata & _).
  exists d. split; [exact Hd |]. eexists. split; [exact Hdata |].
  clear Hty. revert Hd Hdata. unfold Enrichment.threat_data.
  destruct indicator_type as [| | | | t | |]; cbn [py_get_key assoc];
    try (intros [= <-]; destruct indicator; try discriminate Hind;
         cbn; intros [= <- <- <-]; left; reflexivity).
  all: try discriminate.
  repeat match goal with
         | |- context [String.eqb t ?x] => destruct (String.eqb t x)
         end;
    intros [= <-];
    (destruct indicator as [| | | | i | |]; try discriminate Hind;
     cbn [py_get_key assoc];
     repeat match goal with
            | |- context [String.eqb i ?x] => destruct (String.eqb i x)
            end;
     intros [= <- <- <-]; cbn; tauto).
Qed.

(** X13.  What the enrichment handler answers with status 200 is always
    accepted by the classifier as its enrichment: for every alert the
    classifier returns a verdict, never CRITICAL, and requires approval
    exactly when the answer's reputation is "malicious". *)
Theorem enrichment_answer_classified `{R : PyRepr} (event : json)
    (context : lambda_context) (w : world) (resp : response) (doc alert : json)
    (context' : lambda_context) (w' : world) :
  fst (Enrichment.lambda_handler event context w) = Ok resp ->
  statusCode resp = 200 ->
  body resp = json_dumps doc ->
  exists v,
    fst (Triage.lambda_handler (JObj [("alert", alert); ("enrichment", doc)])
           context' w') = Ok v /\
    Triage.severity v <> "CRITICAL" /\
    (Triage.requires_approval v = true <->
     py_get doc "reputation" JNull = Ok (JStr "malicious")).
Proof.
  destruct event as [| | | | | | m]; try discriminate.
  unfold Enrichment.lambda_handler, bind, print, lift, ret. cbn [py_get].
  set (indicator := match assoc "indicator" m with Some x => x | None => JStr "" end).
  set (indicator_type := match assoc "type" m with Some x => x | None => JStr "ip" end).
  destruct (py_truthy indicator) eqn:Htruthy; cbn [negb fst];
    [| intros [= <-]; discriminate].
  destruct (py_hashable indicator_type) eqn:Hty;
    [| destruct indicator_type; try discriminate Hty; discriminate].
  destruct (py_hashable indicator) eqn:Hind.
  - destruct (threat_data_record indicator_type indicator Hty Hind)
      as (d & Hd & data & Hdata & Hin).
    rewrite Hd, Hdata. clearbody indicator indicator_type.
    unfold lookup_records, Enrichment.unknown_reputation in Hin. cbn [In] in Hin.
    destruct Hin as [<- | [<- | [<- | [<- | [<- | []]]]]];
      cbn [py_subscript assoc String.eqb Ascii.eqb Bool.eqb fst];
      intros [= <-] _ [= <-];
      (eexists; split;
       [ match goal with
         | |- fst (Triage.lambda_handler ?ev ?c ?w) = _ =>
             match ev with
             | context [("enrichment", JObj ?enr)] =>
                 match enr with
                 | context [("confidence", JFloat ?f)] =>
                     rewrite (triage_eval ev c w enr (NFloat f) eq_refl eq_refl)
                 end
             end
         end; cbn [fst]; reflexivity
       | vm_compute; split; [discriminate | split; [intros Hx | intros Hx]];
         first [reflexivity | discriminate Hx] ]).
  - assert (Hd : exists d, py_get_key Enrichment.threat_data indicator_type (JObj [])
                           = Ok (JObj d)).
    { unfold Enrichment.threat_data.
      destruct indicator_type as [| | | | t | |]; try discriminate Hty;
        cbn [py_get_key]; eauto.
      cbn [assoc].
      repeat match goal with
             | |- context [String.eqb t ?k] => destruct (String.eqb t k)
             end; eauto. }
    destruct Hd as [d ->].
    destruct indicator; try discriminate Hind; discriminate.
Qed.

Lemma enrichment_answer_classified_witness :
  exists v,
    fst (Triage.lambda_handler
           (JObj [("alert", JObj [("alert_id", JStr "SEC-2025-001")]);
                  ("enrichment",
                   JObj [("indicator", JStr "192.168.1.100");
                         ("type", JStr "ip");
                         ("reputation", JStr "suspicious");
                         ("confidence", JFloat 0.65);
                         ("category", JStr "C2_server");
                         ("sources", JArr [JStr "Mock Threat Intel DB"])])])
           (mkContext "req-2") (mkWorld [] "2025-10-18T12:00:01")) = Ok v /\
    Triage.severity v <> "CRITICAL" /\
    (Triage.requires_approval v = true <->
     py_get (JObj [("indicator", JStr "192.168.1.100");
                   ("type", JStr "ip");
                   ("reputation", JStr "suspicious");
                   ("confidence", JFloat 0.65);
                   ("category", JStr "C2_server");
                   ("sources", JArr [JStr "Mock Threat Intel DB"])])
       "reputation" JNull = Ok (JStr "malicious")).
Proof.
  apply (enrichment_answer_classified (R := sample_repr)
           (JObj [("indicator", JStr "192.168.1.100")])
           (mkContext "req-1") (mkWorld [] "2025-10-18T12:00:00")
           (mkResponse 200
              (json_dumps
                 (JObj [("indicator", JStr "192.168.1.100");
                        ("type", JStr "ip");
                        ("reputation", JStr "suspicious");
                        ("confidence", JFloat 0.65);
                        ("category", JStr "C2_server");
                        ("sources", JArr [JStr "Mock Threat Intel DB"])]))));
    reflexivity.
Defined.

(** ** The browser executor: refusals and logging *)

(** X14.  An event without an action, or with an empty one, is refused
    with status 400 and the error "No action specified", whatever its
    [parameters] entry holds (a mapping or not); nothing is executed and
    only the invocation line is printed. *)
Theorem browser_executor_missing_action `{R : PyRepr} (event : json)
    (context : lambda_context) (w : world) (action : json) :
  py_get event "action" JNull = Ok action ->
  py_truthy action = false ->
  BrowserExecutor.lambda_handler event context w =
    (Ok (mkResponse 400 (json_dumps (JObj [("error", JStr "No action specified")]))),
     mkWorld
       (stdout w ++ ["Browser Executor Lambda invoked with event: " ++ py_str event])
       (clock w)).
Proof.
  intros Haction Hfalsy.
  destruct event as [| | | | | | m]; try discriminate Haction.
  unfold BrowserExecutor.lambda_handler, bind, print, lift, ret.
  rewrite Haction. cbn [py_get]. rewrite Hfalsy. reflexivity.
Qed.

Lemma browser_executor_missing_action_witness :
  BrowserExecutor.lambda_handler (R := sample_repr)
    (JObj [("parameters", JNull)]) (mkContext "5d2f8b1c-77aa")
    (mkWorld [] "2025-10-18T12:00:00") =
    (Ok (mkResponse 400 (json_dumps (JObj [("error", JStr "No action specified")]))),
     mkWorld
       (stdout (mkWorld [] "2025-10-18T12:00:00") ++
        ["Browser Executor Lambda invoked with event: " ++
         py_str (R := sample_repr) (JObj [("parameters", JNull)])])
       (clock (mkWorld [] "2025-10-18T12:00:00"))).
Proof.
  apply (browser_executor_missing_action (R := sample_repr)
           (JObj [("parameters", JNull)]) (mkContext "5d2f8b1c-77aa")
           (mkWorld [] "2025-10-18T12:00:00") JNull);
    reflexivity.
Defined.

(** X15.  A non-empty action other than "quarantine", "isolate" and
    "block_domain" (the match is exact and case-sensitive) is refused with
    status 400 and "Unknown action: " followed by the action, whatever the
    [parameters] entry holds; no execution line is printed. *)
Theorem browser_executor_unknown_action `{R : PyRepr} (event : json)
    (context : lambda_context) (w : world) (action : json) :
  py_get event "action" JNull = Ok action ->
  py_truthy action = true ->
  py_eq_str action "quarantine" = false ->
  py_eq_str action "isolate" = false ->
  py_eq_str action "block_domain" = false ->
  BrowserExecutor.lambda_handler event context w =
    (Ok (mkResponse 400
           (json_dumps (JObj [("error", JStr ("Unknown action: " ++ py_str action))]))),
     mkWorld
       (stdout w ++ ["Browser Executor Lambda invoked with event: " ++ py_str event])
       (clock w)).
Proof.
  intros Haction Htruthy Hq Hi Hb.
  destruct event as [| | | | | | m]; try discriminate Haction.
  unfold BrowserExecutor.lambda_handler, bind, print, lift, ret.
  rewrite Haction. cbn [py_get]. rewrite Htruthy, Hq, Hi, Hb. reflexivity.
Qed.

Lemma browser_executor_unknown_action_witness :
  BrowserExecutor.lambda_handler (R := sample_repr)
    (JObj [("action", JStr "Quarantine"); ("parameters", JArr [])])
    (mkContext "5d2f8b1c-77aa") (mkWorld [] "2025-10-18T12:00:00") =
    (Ok (mkResponse 400
           (json_dumps
              (JObj [("error",
                      JStr ("Unknown action: " ++
                            py_str (R := sample_repr) (JStr "Quarantine")))]))),
     mkWorld
       (stdout (mkWorld [] "2025-10-18T12:00:00") ++
        ["Browser Executor Lambda invoked with event: " ++
         py_str (R := sample_repr)
           (JObj [("action", JStr "Quarantine"); ("parameters", JArr [])])])
       (clock (mkWorld [] "2025-10-18T12:00:00"))).
Proof.
  apply (browser_executor_unknown_action (R := sample_repr)
           (JObj [("action", JStr "Quarantine"); ("parameters", JArr [])])
           (mkContext "5d2f8b1c-77aa") (mkWorld [] "2025-10-18T12:00:00")
           (JStr "Quarantine"));
    reflexivity.
Defined.

(** The runs of the handler that return a response, by branch. *)
Lemma browser_executor_returns_inv `{R : PyRepr} (event : json)
    (context : lambda_context) (w : world) (resp : response) :
  fst (BrowserExecutor.lambda_handler event context w) = Ok resp ->
  (statusCode resp = 400 /\
   stdout (snd (BrowserExecutor.lambda_handler event context w)) =
     (stdout w ++
      [("Browser Executor Lambda invoked with event: " ++ py_str event)%string])%list /\
   forall a, py_get event "action" JNull = Ok (JStr a) ->
             ~ In a ["quarantine"; "isolate"; "block_domain"]) \/
  (statusCode resp = 200 /\
   (exists doc,
       body resp = json_dumps doc /\
       stdout (snd (BrowserExecutor.lambda_handler event context w)) =
         (stdout w ++
          [("Browser Executor Lambda invoked with event: " ++ py_str event)%string;
           ("Execution result: " ++ py_str doc)%string])%list) /\
   exists a, py_get event "action" JNull = Ok (JStr a) /\
             In a ["quarantine"; "isolate"; "block_domain"]).
Proof.
  destruct event as [| | | | | | m]; try discriminate.
  unfold BrowserExecutor.lambda_handler, bind, print, lift, ret, utcnow_isoformat.
  cbn [py_get].
  set (action := match assoc "action" m with Some v => v | None => JNull end).
  set (params := match assoc "parameters" m with Some v => v | None => JObj [] end).
  destruct (py_truthy action) eqn:Htruthy; cbn [negb].
  - destruct (py_eq_str action "quarantine") eqn:Hq;
      [| destruct (py_eq_str action "isolate") eqn:Hi;
         [| destruct (py_eq_str action "block_domain") eqn:Hb]].
    4: { cbn [fst snd stdout]. intros [= <-]. left.
         split; [reflexivity | split; [reflexivity |]].
         intros a [= Ha]. rewrite Ha in Hq, Hi, Hb. cbn [py_eq_str] in *.
         apply String.eqb_neq in Hq, Hi, Hb. cbn [In]. intuition congruence. }
    all: destruct params as [| | | | | | p]; try discriminate; cbn [py_get fst snd stdout];
      intros [= <-]; right;
      (split; [reflexivity |]);
      (split; [eexists; split; [reflexivity | rewrite <- app_assoc; reflexivity] |]);
      destruct action as [| | | | a | |]; try discriminate;
      cbn [py_eq_str] in *;
      exists a; (split; [reflexivity |]);
      match goal with
      | H : String.eqb a _ = true |- _ => apply String.eqb_eq in H; subst a
      end; cbn [In]; tauto.
  - cbn [fst snd stdout]. intros [= <-]. left.
    split; [reflexivity | split; [reflexivity |]].
    intros a [= Ha]. rewrite Ha in Htruthy. cbn [py_truthy] in Htruthy.
    apply negb_false_iff, String.eqb_eq in Htruthy. subst a.
    cbn [In]. intuition discriminate.
Qed.

(** X16.  Whenever the handler returns, the status is 200 or 400, and it
    is 200 exactly when the action is the string "quarantine", "isolate"
    or "block_domain". *)
Theorem browser_executor_status `{R : PyRepr} (event : json)
    (context : lambda_context) (w : world) (resp : response) :
  fst (BrowserExecutor.lambda_handler event context w) = Ok resp ->
  (statusCode resp = 200 \/ statusCode resp = 400) /\
  (statusCode resp = 200 <->
   exists a, py_get event "action" JNull = Ok (JStr a) /\
             In a ["quarantine"; "isolate"; "block_domain"]).
Proof.
  intros Hrun.
  destruct (browser_executor_returns_inv event context w resp Hrun)
    as [(H400 & _ & Hnot) | (H200 & _ & Hact)].
  - split; [right; exact H400 |]. split.
    + rewrite H400. discriminate.
    + intros (a & Ha & Hin). destruct (Hnot a Ha Hin).
  - split; [left; exact H200 |]. split; auto.
Qed.

Lemma browser_executor_status_witness :
  (statusCode (mkResponse 400 (json_dumps (JObj [("error", JStr "No action specified")])))
     = 200 \/
   statusCode (mkResponse 400 (json_dumps (JObj [("error", JStr "No action specified")])))
     = 400) /\
  (statusCode (mkResponse 400 (json_dumps (JObj [("error", JStr "No action specified")])))
     = 200 <->
   exists a, py_get (JObj [("action", JStr "")]) "action" JNull = Ok (JStr a) /\
             In a ["quarantine"; "isolate"; "block_domain"]).
Proof.
  apply (browser_executor_status (R := sample_repr) (JObj [("action", JStr "")])
           (mkContext "5d2f8b1c-77aa") (mkWorld [] "2025-10-18T12:00:00")).
  reflexivity.
Defined.

(** X17.  Every execution is logged: when the handler answers with status
    200, the record it returns is the one printed on the "Execution
    result" line, right after the invocation line and after whatever was
    printed before. *)
Theorem browser_executor_logs_execution `{R : PyRepr} (event : json)
    (context : lambda_context) (w : world) (resp : response) :
  fst (BrowserExecutor.lambda_handler event context w) = Ok resp ->
  statusCode resp = 200 ->
  exists doc,
    body resp = json_dumps doc /\
    stdout (snd (BrowserExecutor.lambda_handler event context w)) =
      (stdout w ++
       [("Browser Executor Lambda invoked with event: " ++ py_str event)%string;
        ("Execution result: " ++ py_str doc)%string])%list.
Proof.
  intros Hrun H200.
  destruct (browser_executor_returns_inv event context w resp Hrun)
    as [(H400 & _) | (_ & Hdoc & _)].
  - rewrite H400 in H200. discriminate H200.
  - exact Hdoc.
Qed.

Lemma browser_executor_logs_execution_witness :
  exists doc,
    body (mkResponse 200
            (json_dumps
               (JObj [("success", JBool true);
                      ("action", JStr "block_domain");
                      ("target", JStr "malicious-site.com");
                      ("timestamp", JStr "2025-10-18T12:00:00");
                      ("message",
                       JStr "Demo: Successfully blocked domain malicious-site.com")])))
      = json_dumps doc /\
    stdout (snd (BrowserExecutor.lambda_handler (R := sample_repr)
                   (JObj [("action", JStr "block_domain");
                          ("parameters", JObj [("domain", JStr "malicious-site.com")])])
                   (mkContext "5d2f8b1c-77aa") (mkWorld [] "2025-10-18T12:00:00"))) =
      (stdout (mkWorld [] "2025-10-18T12:00:00") ++
       [("Browser Executor Lambda invoked with event: " ++
         py_str (R := sample_repr)
           (JObj [("action", JStr "block_domain");
                  ("parameters", JObj [("domain", JStr "malicious-site.com")])]))%string;
        ("Execution result: " ++ py_str (R := sample_repr) doc)%string])%list.
Proof.
  apply (browser_executor_logs_execution (R := sample_repr)
           (JObj [("action", JStr "block_domain");
                  ("parameters", JObj [("domain", JStr "malicious-site.com")])])
           (mkContext "5d2f8b1c-77aa") (mkWorld [] "2025-10-18T12:00:00"));
    reflexivity.
Defined.

(** ** The AgentCore executor: what it calls and when *)

Ltac nova_unfold :=
  unfold invocation_trace, NovaExecutor.lambda_handler, NovaExecutor.init,
    NovaExecutor.quarantine_host, NovaExecutor.cleanup, NovaExecutor.client,
    NovaExecutor.logger_info, NovaExecutor.set_session_id,
    NovaExecutor.get_session_id, try_finally, bind, lift, ret;
  cbn [fst snd NovaExecutor.calls NovaExecutor.session_id
       NovaExecutor.service_state NovaExecutor.log].

(** X18.  An action other than the string "quarantine" is answered with
    [{"error": "Unknown action"}] and nothing else happens: no client call
    is made, no session is created, nothing is logged. *)
Theorem nova_unknown_action `{R : PyRepr} (B : Type)
    (service : NovaExecutor.call -> B -> result json * B)
    (event : json) (context : lambda_context) (s : NovaExecutor.state B)
    (action : json) :
  py_get event "action" JNull = Ok action ->
  py_eq_str action "quarantine" = false ->
  NovaExecutor.lambda_handler B service event context s =
    (Ok (JObj [("error", JStr "Unknown action")]),
     NovaExecutor.mkState JNull (NovaExecutor.service_state s)
       (NovaExecutor.calls s) (NovaExecutor.log s)).
Proof.
  intros Haction Hother.
  destruct event as [| | | | | | m]; try discriminate Haction.
  nova_unfold. rewrite Haction. cbn [py_get]. rewrite Hother.
  reflexivity.
Qed.

Lemma nova_unknown_action_witness :
  NovaExecutor.lambda_handler (R := sample_repr) nat answering_service
    (JObj [("action", JStr "isolate");
           ("parameters", JObj [("hostname", JStr "srv-12")])])
    (mkContext "77aa5d2f-0001") (NovaExecutor.mkState JNull 0%nat [] []) =
    (Ok (JObj [("error", JStr "Unknown action")]),
     NovaExecutor.mkState JNull
       (NovaExecutor.service_state (NovaExecutor.mkState JNull 0%nat [] []))
       (NovaExecutor.calls (NovaExecutor.mkState JNull 0%nat [] []))
       (NovaExecutor.log (NovaExecutor.mkState JNull 0%nat [] []))).
Proof.
  apply (nova_unknown_action (R := sample_repr) nat answering_service
           (JObj [("action", JStr "isolate");
                  ("parameters", JObj [("hostname", JStr "srv-12")])])
           (mkContext "77aa5d2f-0001") (NovaExecutor.mkState JNull 0%nat [] [])
           (JStr "isolate"));
    reflexivity.
Defined.

(** X19.  A quarantine request whose parameters lack [target_ip] or
    [reason] (or are not a mapping) raises the lookup's error before any
    client call: no session is created and nothing is logged. *)
Theorem nova_missing_parameter `{R : PyRepr} (B : Type)
    (service : NovaExecutor.call -> B -> result json * B)
    (event : json) (context : lambda_context) (s : NovaExecutor.state B)
    (params : json) (e : exn) :
  py_get event "action" JNull = Ok (JStr "quarantine") ->
  py_get event "parameters" (JObj []) = Ok params ->
  py_subscript params "target_ip" = Raise e \/
  (exists target_ip, py_subscript params "target_ip" = Ok target_ip /\
                     py_subscript params "reason" = Raise e) ->
  NovaExecutor.lambda_handler B service event context s =
    (Raise e,
     NovaExecutor.mkState JNull (NovaExecutor.service_state s)
       (NovaExecutor.calls s) (NovaExecutor.log s)).
Proof.
  intros Haction Hparams Hmissing.
  nova_unfold. rewrite Haction, Hparams. cbn [py_eq_str String.eqb Ascii.eqb Bool.eqb].
  destruct Hmissing as [Ht | (t & Ht & Hr)].
  - rewrite Ht. reflexivity.
  - rewrite Ht, Hr. reflexivity.
Qed.

Lemma nova_missing_parameter_witness :
  NovaExecutor.lambda_handler (R := sample_repr) nat answering_service
    (JObj [("action", JStr "quarantine")])
    (mkContext "77aa5d2f-0001") (NovaExecutor.mkState JNull 0%nat [] []) =
    (Raise (KeyError "target_ip"),
     NovaExecutor.mkState JNull
       (NovaExecutor.service_state (NovaExecutor.mkState JNull 0%nat [] []))
       (NovaExecutor.calls (NovaExecutor.mkState JNull 0%nat [] []))
       (NovaExecutor.log (NovaExecutor.mkState JNull 0%nat [] []))).
Proof.
  apply (nova_missing_parameter (R := sample_repr) nat answering_service
           (JObj [("action", JStr "quarantine")])
           (mkContext "77aa5d2f-0001") (NovaExecutor.mkState JNull 0%nat [] [])
           (JObj []) (KeyError "target_ip")).
  - reflexivity.
  - reflexivity.
  - left. reflexivity.
Defined.

(** X20.  The executor deletes no session but its own: a
    [delete_browser_session] call of an invocation is for the non-empty
    session id that a [create_browser_session] call of the same invocation
    returned. *)
Theorem nova_deletes_only_acquired `{R : PyRepr} (B : Type)
    (service : NovaExecutor.call -> B -> result json * B) (b : B)
    (event : json) (context : lambda_context) (sid : json) (r : result json) :
  In (NovaExecutor.DeleteBrowserSession sid, r)
     (invocation_trace service b event context) ->
  acquired (invocation_trace service b event context) sid /\ py_truthy sid = true.
Proof.
  nova_unfold.
  repeat run_step service; intros Hin;
    try match goal with
        | H : py_truthy JNull = true |- _ => discriminate H
        end;
    repeat (apply in_app_or in Hin; destruct Hin as [Hin | Hin]);
    cbn [In] in Hin;
    repeat match type of Hin with
           | _ \/ _ => destruct Hin as [Hin | Hin]
           | False => destruct Hin
           end;
    try discriminate Hin;
    injection Hin as <- <-;
    (split; [| assumption]);
    do 3 eexists; (split; [cbn [app In]; left; reflexivity | eassumption]).
Qed.

Lemma nova_deletes_only_acquired_witness :
  acquired
    (invocation_trace (R := sample_repr) answering_service 0%nat
       (quarantine_event (JStr "10.0.0.50") (JStr "malware host"))
       (mkContext "77aa5d2f-0001"))
    (JStr "sess-7") /\
  py_truthy (JStr "sess-7") = true.
Proof.
  apply (nova_deletes_only_acquired (R := sample_repr) nat answering_service 0%nat
           (quarantine_event (JStr "10.0.0.50") (JStr "malware host"))
           (mkContext "77aa5d2f-0001") (JStr "sess-7") (Ok (JObj []))).
  vm_compute. right. right. right. left. reflexivity.
Defined.

(** X21.  An invocation makes at most four client calls, creates at most
    one session and deletes at most one, whatever the event and whatever
    the service answers. *)
Theorem nova_call_bounds `{R : PyRepr} (B : Type)
    (service : NovaExecutor.call -> B -> result json * B) (b : B)
    (event : json) (context : lambda_context) :
  (length (invocation_trace service b event context) <= 4)%nat /\
  (length (filter is_create (invocation_trace service b event context)) <= 1)%nat /\
  (length (filter is_delete (invocation_trace service b event context)) <= 1)%nat.
Proof.
  nova_unfold.
  repeat run_step service; cbn; lia.
Qed.

(** X22.  A failed cleanup masks the outcome of the action: when the
    [delete_browser_session] call raises, the invocation raises that
    error, also when the quarantine itself had succeeded. *)
Theorem nova_failed_cleanup_masks_outcome `{R : PyRepr} (B : Type)
    (service : NovaExecutor.call -> B -> result json * B) (b : B)
    (event : json) (context : lambda_context) (sid : json) (e : exn)
    (before : list (NovaExecutor.call * result json)) :
  invocation_trace service b event context =
    (before ++ [(NovaExecutor.DeleteBrowserSession sid, Raise e)])%list ->
  fst (NovaExecutor.lambda_handler B service event context
         (NovaExecutor.mkState JNull b [] [])) = Raise e.
Proof.
  nova_unfold.
  repeat run_step service; intros Htrace;
    try match goal with
        | H : py_truthy JNull = true |- _ => discriminate H
        end;
    try (destruct before; discriminate Htrace);
    apply app_inj_tail in Htrace; destruct Htrace as [_ Hlast];
    try discriminate Hlast;
    injection Hlast as _ <-; reflexivity.
Qed.

Lemma nova_failed_cleanup_masks_outcome_witness :
  fst (NovaExecutor.lambda_handler (R := sample_repr) nat leaking_service
         (quarantine_event (JStr "10.0.0.50") (JStr "malware host"))
         (mkContext "77aa5d2f-0001") (NovaExecutor.mkState JNull 0%nat [] [])) =
    Raise (ClientError "AccessDenied").
Proof.
  apply (nova_failed_cleanup_masks_outcome (R := sample_repr) nat leaking_service 0%nat
           (quarantine_event (JStr "10.0.0.50") (JStr "malware host"))
           (mkContext "77aa5d2f-0001") (JStr "sess-7") (ClientError "AccessDenied")
           [ (NovaExecutor.CreateBrowserSession "security-runbook-agent"
                session_configuration,
              Ok (JObj [("sessionId", JStr "sess-7")]));
             (NovaExecutor.InvokeBrowserAction (JStr "sess-7")
                (action_input (R := sample_repr) (JStr "10.0.0.50")),
              Ok (JObj [("screenshotUrl", JStr "https://shots/7.png");
                        ("actionLog", JArr [JStr "opened console"; JStr "blocked"])]));
             (NovaExecutor.GetBrowserSessionRecording (JStr "sess-7"),
              Ok (JObj [("recordingUrl", JStr "https://recordings/7.mp4")])) ]).
  reflexivity.
Defined.

(** X23.  When the service answers every call, a quarantine request
    makes exactly the four calls create, invoke, get-recording and delete,
    in this order and all for the session the service opened, logs one
    line, and returns the success record built from the service's answers
    (absent URLs and action log as [None]). *)
Theorem nova_quarantine_succeeds `{R : PyRepr} (B : Type)
    (service : NovaExecutor.call -> B -> result json * B) (b b1 b2 b3 b4 : B)
    (event : json) (context : lambda_context)
    (params target_ip reason resp sid deleted : json)
    (action_resp recording : list (string * json)) :
  py_get event "action" JNull = Ok (JStr "quarantine") ->
  py_get event "parameters" (JObj []) = Ok params ->
  py_subscript params "target_ip" = Ok target_ip ->
  py_subscript params "reason" = Ok reason ->
  service (NovaExecutor.CreateBrowserSession "security-runbook-agent"
             session_configuration) b = (Ok resp, b1) ->
  py_subscript resp "sessionId" = Ok sid ->
  py_truthy sid = true ->
  service (NovaExecutor.InvokeBrowserAction sid (action_input target_ip)) b1 =
    (Ok (JObj action_resp), b2) ->
  service (NovaExecutor.GetBrowserSessionRecording sid) b2 = (Ok (JObj recording), b3) ->
  service (NovaExecutor.DeleteBrowserSession sid) b3 = (Ok deleted, b4) ->
  NovaExecutor.lambda_handler B service event context
    (NovaExecutor.mkState JNull b [] []) =
    (Ok (JObj [("success", JBool true);
               ("target", target_ip);
               ("action", JStr "quarantine");
               ("session_id", sid);
               ("recording_url",
                match assoc "recordingUrl" recording with Some v => v | None => JNull end);
               ("screenshot_url",
                match assoc "screenshotUrl" action_resp with Some v => v | None => JNull end);
               ("audit_trail",
                match assoc "actionLog" action_resp with Some v => v | None => JNull end)]),
     NovaExecutor.mkState sid b4
       [ (NovaExecutor.CreateBrowserSession "security-runbook-agent"
            session_configuration, Ok resp);
         (NovaExecutor.InvokeBrowserAction sid (action_input target_ip),
          Ok (JObj action_resp));
         (NovaExecutor.GetBrowserSessionRecording sid, Ok (JObj recording));
         (NovaExecutor.DeleteBrowserSession sid, Ok deleted) ]
       [("Quarantining " ++ py_str target_ip ++ ": " ++ py_str reason)%string]).
Proof.
  intros Haction Hparams Htarget Hreason Hcreate Hsid Htruthy Hinvoke Hrecording Hdelete.
  unfold session_configuration, action_input in *.
  nova_unfold.
  rewrite Haction, Hparams. cbn [py_eq_str String.eqb Ascii.eqb Bool.eqb].
  rewrite Htarget, Hreason.
  repeat (cbn [fst snd NovaExecutor.calls NovaExecutor.session_id
               NovaExecutor.service_state NovaExecutor.log py_get];
          first [ rewrite Hcreate | rewrite Hsid | rewrite Hinvoke
                | rewrite Hrecording ]).
  cbn [fst snd NovaExecutor.calls NovaExecutor.session_id
       NovaExecutor.service_state NovaExecutor.log py_get].
  rewrite Htruthy.
  cbn [fst snd NovaExecutor.calls NovaExecutor.session_id
       NovaExecutor.service_state NovaExecutor.log py_get].
  rewrite Hdelete. reflexivity.
Qed.

Lemma nova_quarantine_succeeds_witness :
  NovaExecutor.lambda_handler (R := sample_repr) nat answering_service
    (quarantine_event (JStr "10.0.0.50") (JStr "malware host"))
    (mkContext "77aa5d2f-0001") (NovaExecutor.mkState JNull 0%nat [] []) =
    (Ok (JObj [("success", JBool true);
               ("target", JStr "10.0.0.50");
               ("action", JStr "quarantine");
               ("session_id", JStr "sess-7");
               ("recording_url", JStr "https://recordings/7.mp4");
               ("screenshot_url", JStr "https://shots/7.png");
               ("audit_trail", JArr [JStr "opened console"; JStr "blocked"])]),
     NovaExecutor.mkState (JStr "sess-7") 4%nat
       [ (NovaExecutor.CreateBrowserSession "security-runbook-agent"
            session_configuration, Ok (JObj [("sessionId", JStr "sess-7")]));
         (NovaExecutor.InvokeBrowserAction (JStr "sess-7")
            (action_input (R := sample_repr) (JStr "10.0.0.50")),
          Ok (JObj [("screenshotUrl", JStr "https://shots/7.png");
                    ("actionLog", JArr [JStr "opened console"; JStr "blocked"])]));
         (NovaExecutor.GetBrowserSessionRecording (JStr "sess-7"),
          Ok (JObj [("recordingUrl", JStr "https://recordings/7.mp4")]));
         (NovaExecutor.DeleteBrowserSession (JStr "sess-7"), Ok (JObj [])) ]
       ["Quarantining 10.0.0.50: malware host"]).
Proof.
  apply (nova_quarantine_succeeds (R := sample_repr) nat answering_service
           0%nat 1%nat 2%nat 3%nat 4%nat
           (quarantine_event (JStr "10.0.0.50") (JStr "malware host"))
           (mkContext "77aa5d2f-0001")
           (JObj [("target_ip", JStr "10.0.0.50"); ("reason", JStr "malware host")])
           (JStr "10.0.0.50") (JStr "malware host")
           (JObj [("sessionId", JStr "sess-7")]) (JStr "sess-7") (JObj [])
           [("screenshotUrl", JStr "https://shots/7.png");
            ("actionLog", JArr [JStr "opened console"; JStr "blocked"])]
           [("recordingUrl", JStr "https://recordings/7.mp4")]);
    reflexivity.
Defined.

(** X24.  The reason of a quarantine request never reaches the service:
    two requests for the same target that differ in their reason make the
    same client calls, leave the service in the same state and return the
    same outcome; only the logged line differs. *)
Theorem nova_reason_not_sent `{R : PyRepr} (B : Type)
    (service : NovaExecutor.call -> B -> result json * B) (b : B)
    (context1 context2 : lambda_context) (target_ip reason1 reason2 : json) :
  fst (NovaExecutor.lambda_handler B service (quarantine_event target_ip reason1)
         context1 (NovaExecutor.mkState JNull b [] [])) =
  fst (NovaExecutor.lambda_handler B service (quarantine_event target_ip reason2)
         context2 (NovaExecutor.mkState JNull b [] [])) /\
  invocation_trace service b (quarantine_event target_ip reason1) context1 =
  invocation_trace service b (quarantine_event target_ip reason2) context2 /\
  NovaExecutor.service_state
    (snd (NovaExecutor.lambda_handler B service (quarantine_event target_ip reason1)
            context1 (NovaExecutor.mkState JNull b [] []))) =
  NovaExecutor.service_state
    (snd (NovaExecutor.lambda_handler B service (quarantine_event target_ip reason2)
            context2 (NovaExecutor.mkState JNull b [] []))).
Proof.
  unfold quarantine_event. nova_unfold.
  cbn [py_get py_subscript assoc py_eq_str String.eqb Ascii.eqb Bool.eqb
       fst snd NovaExecutor.calls NovaExecutor.session_id
       NovaExecutor.service_state NovaExecutor.log].
  repeat run_step service; repeat split; reflexivity.
Qed.

(** ** The approval tool's log *)

(** X25.  The tool always logs its call; it logs "Approval request sent"
    for the target exactly when the severity is the string "HIGH" or
    "CRITICAL" (case-sensitive).  For every other severity the approval
    is granted without any request being logged. *)
Theorem approval_request_logged_iff (target severity reason : string)
    (out : list string) :
  (severity = "HIGH" \/ severity = "CRITICAL" ->
   snd (SecurityAgent.request_quarantine_approval target severity reason out) =
     (out ++ [("Tool called: request_quarantine_approval(" ++ target ++ ", "
               ++ severity ++ ")")%string;
              ("Approval request sent for " ++ target)%string])%list) /\
  (severity <> "HIGH" /\ severity <> "CRITICAL" ->
   snd (SecurityAgent.request_quarantine_approval target severity reason out) =
     (out ++ [("Tool called: request_quarantine_approval(" ++ target ++ ", "
               ++ severity ++ ")")%string])%list).
Proof.
  unfold SecurityAgent.request_quarantine_approval, SecurityAgent.logger_info,
    SecurityAgent.in_list, bind, ret.
  cbn [existsb snd].
  split.
  - intros [-> | ->]; cbn; rewrite <- app_assoc; reflexivity.
  - intros [Hh Hc].
    apply String.eqb_neq in Hh, Hc. rewrite Hh, Hc. reflexivity.
Qed.

Lemma approval_request_logged_iff_witness :
  ("MEDIUM" = "HIGH" \/ "MEDIUM" = "CRITICAL" ->
   snd (SecurityAgent.request_quarantine_approval "10.0.0.50" "MEDIUM" "scan" []) =
     ([] ++ [("Tool called: request_quarantine_approval(" ++ "10.0.0.50" ++ ", "
              ++ "MEDIUM" ++ ")")%string;
             ("Approval request sent for " ++ "10.0.0.50")%string])%list) /\
  ("MEDIUM" <> "HIGH" /\ "MEDIUM" <> "CRITICAL" ->
   snd (SecurityAgent.request_quarantine_approval "10.0.0.50" "MEDIUM" "scan" []) =
     ([] ++ [("Tool called: request_quarantine_approval(" ++ "10.0.0.50" ++ ", "
              ++ "MEDIUM" ++ ")")%string])%list).
Proof.
  exact (approval_request_logged_iff "10.0.0.50" "MEDIUM" "scan" []).
Defined.
